(** * oursql: node client framing and the transactional SQL envelope

    A shallow embedding of two Go packages of the repository,

    - [nodeclient] (the network client: address check, request framing,
      fire-and-forget and wait-response calls), and
    - [dbquery] (the parsed query: classification, rollback statement,
      envelope extraction from the first comment),

    together with the parts of the Go standard library they call
    ([encoding/binary], [encoding/base64], [regexp] for the three patterns
    the code compiles); [encoding/gob] and the socket layer are inputs of
    the functions that use them.

    Go values are represented as follows: [int] and [uint32] are [Z], with
    the conversion to [uint32] written out as a reduction modulo [2^32];
    a [string] is a [string] (a sequence of 8-bit characters, as in Go);
    a [[]byte] is a [list byte]; a Go [error] is [option error], [None]
    being [nil]. *)

From Stdlib Require Import ZArith List Bool Lia.
From Stdlib Require Import Strings.String Strings.Ascii Strings.Byte DecimalString.
From Stdlib Require Import Floats.PrimFloat.
From coqutil Require Import Z.bitblast.
Import ListNotations.

Local Open Scope string_scope.
Local Open Scope Z_scope.
Local Open Scope list_scope.

(** ** Go values *)

(** The errors the two packages can return.  [errorString] is the value of
    [errors.New]; the four [CanNot...]/[NoResponse] constructors are the
    values of [netlib]'s [New...Error] functions; [CorruptInputError] is
    [encoding/base64]'s; [OpError] stands for an error produced by the
    socket layer or by [encoding/gob], known by its text only. *)
Inductive error : Type :=
| errorString (msg : string)
| CanNotConnectError (msg : string)
| CanNotSendError (msg : string)
| NoResponseError (msg : string)
| CanNotParseResponseError (msg : string)
| CorruptInputError (pos : Z)
| OpError (msg : string).

(** Result of a Go function returning [(T, error)] where exactly one of the
    two is meaningful. *)
Inductive result (A : Type) : Type :=
| Ok (a : A)
| Err (e : error).
Arguments Ok {A} a.
Arguments Err {A} e.

(** [len] of a slice, as a Go [int]. *)
Definition len {A : Type} (l : list A) : Z := Z.of_nat (List.length l).

(** [byte(v)]: the low eight bits. *)
Definition byte_of_Z (v : Z) : byte :=
  match Byte.of_N (Z.to_N (Z.land v 255)) with
  | Some b => b
  | None => x00
  end.

Definition Z_of_byte (b : byte) : Z := Z.of_N (Byte.to_N b).

(** [uint32(n)] for a Go [int]. *)
Definition uint32 (n : Z) : Z := n mod 2 ^ 32.

(** The text of an error, [err.Error()]. *)
Definition decimal (n : Z) : string :=
  NilZero.string_of_int (Z.to_int n).

Definition Error (e : error) : string :=
  match e with
  | errorString msg => msg
  | CanNotConnectError msg => msg
  | CanNotSendError msg => msg
  | NoResponseError msg => msg
  | CanNotParseResponseError msg => msg
  | CorruptInputError pos =>
      ("illegal base64 data at input byte " ++ decimal pos)%string
  | OpError msg => msg
  end.

(** ** encoding/binary *)
Module binary.

(** [binary.LittleEndian.PutUint32(bs, v)] on a fresh 4-byte slice. *)
Definition PutUint32 (v : Z) : list byte :=
  [ byte_of_Z v;
    byte_of_Z (Z.shiftr v 8);
    byte_of_Z (Z.shiftr v 16);
    byte_of_Z (Z.shiftr v 24) ].

(** [binary.LittleEndian.Uint32(bs)]. *)
Definition Uint32 (bs : list byte) : Z :=
  match bs with
  | b0 :: b1 :: b2 :: b3 :: _ =>
      Z.lor (Z_of_byte b0)
        (Z.lor (Z.shiftl (Z_of_byte b1) 8)
           (Z.lor (Z.shiftl (Z_of_byte b2) 16)
              (Z.shiftl (Z_of_byte b3) 24)))
  | _ => 0
  end.

End binary.

(** ** lib/net *)
Module netlib.

(** [netlib.NodeAddr].  The declaration is in [lib/net]; the fields are
    the two the client reads. *)
Record NodeAddr : Type := { Host : string; Port : Z }.

End netlib.
Import netlib.

(** ** nodeclient: the address check *)
Module nodeclient.

(** [CheckNodeAddress]: three guards in the order of the source. *)
Definition CheckNodeAddress (address : NodeAddr) : option error :=
  if address.(Port) <? 1024 then
    Some (errorString "Node Address Port has wrong value")
  else if address.(Port) >? 65536 then
    Some (errorString "Node Address Port has wrong value")
  else if String.eqb address.(Host) "" then
    Some (errorString "Node Address Host has wrong value")
  else None.

(** *** The peer, as the client sees it

    A call opens one socket, writes, possibly reads to the end of the
    stream, and closes.  What the socket layer answers is an input of the
    model: [Conn] holds the outcome of [io.Copy] and of [ioutil.ReadAll]
    on the connection, and a [Network] tells, for the address dialled,
    whether the connection is established.  The calls return the socket
    operations they performed, in order.  Log lines are not modelled. *)
Inductive NetEvent : Type :=
| EvDial (address : string) (timeoutSeconds : Z)
| EvWrite (data : list byte)
| EvReadAll
| EvClose.

Record Conn : Type := {
  copyResult : option error;
  readAllResult : list byte * option error
}.

Definition Network : Type := string -> result Conn.

Section Client.

(** Declared in [lib/net], not under src/: the printed form of an
    address, the fixed-width command identifier, and the gob encoder
    of a request payload of type [D]. *)
Variable NodeAddrToString : NodeAddr -> string.
Variable CommandToBytes : string -> list byte.
Variable D : Type.
Variable GobEncode : D -> result (list byte).

(** [encoding/gob]: [dec.Decode(&payload)] for a [string] variable that
    holds the empty string, and [dec.Decode(datapayload)] for a pointer
    to a [T]; each gives the value the destination holds afterwards and
    the error. *)
Variable T : Type.
Variable gobDecodeString : list byte -> string * option error.
Variable gobDecode : list byte -> T -> T * option error.

(** The client.  Its logger and its pointer to the node network are left
    out: no function below reads them but to write log lines. *)
Record NodeClient : Type := {
  DataDir : string;
  NodeAddress : NodeAddr;
  Address : string;
  NodeAuthStr : string
}.

(** [doBuildCommandData]; [data] is [None] for a [nil] interface. *)
Definition doBuildCommandData (command : string) (data : option D)
    (extra : list byte) : result (list byte) :=
  match (match data with
         | Some d => GobEncode d
         | None => Ok []
         end) with
  | Err err => Err err
  | Ok payload =>
      let payloadlength := uint32 (len payload) in
      let bs := binary.PutUint32 payloadlength in
      let request := CommandToBytes command ++ bs in
      let payloadlength := uint32 (len extra) in
      let bs := binary.PutUint32 payloadlength in
      let request := request ++ bs in
      let request := request ++ payload in
      let request :=
        if len extra >? 0 then request ++ extra else request in
      Ok request
  end.

(** [payload] is what the first lines of [doBuildCommandData] compute from
    [data] when the encoder does not fail. *)
Definition payloadOf (data : option D) (payload : list byte) : Prop :=
  match data with
  | Some d => GobEncode d = Ok payload
  | None => payload = []
  end.

Definition BuildCommandData (command : string) (data : option D)
    : result (list byte) :=
  doBuildCommandData command data [].

Definition BuildCommandDataWithAuth (c : NodeClient) (command : string)
    (data : option D) : result (list byte) :=
  let authbytes := CommandToBytes c.(NodeAuthStr) in
  doBuildCommandData command data authbytes.

(** [SendData]: no response is read. *)
Definition SendData (net : Network) (addr : NodeAddr) (data : list byte)
    : list NetEvent * option error :=
  match CheckNodeAddress addr with
  | Some err => ([], Some err)
  | None =>
      let dial := EvDial (NodeAddrToString addr) 1 in
      match net (NodeAddrToString addr) with
      | Err _ =>
          ([dial],
           Some (CanNotConnectError
                   (NodeAddrToString addr ++ " is not available")%string))
      | Ok conn =>
          match conn.(copyResult) with
          | Some err =>
              ([dial; EvWrite data; EvClose],
               Some (CanNotSendError (Error err)))
          | None => ([dial; EvWrite data; EvClose], None)
          end
      end
  end.

(** [SendDataWaitResponse]; [datapayload] is [None] for a [nil]
    interface and [Some v] for a pointer to a variable holding [v].
    The second component is what that variable holds on return. *)
Definition SendDataWaitResponse (net : Network) (addr : NodeAddr)
    (data : list byte) (datapayload : option T)
    : list NetEvent * option T * option error :=
  match CheckNodeAddress addr with
  | Some err => ([], datapayload, Some err)
  | None =>
      let dial := EvDial (NodeAddrToString addr) 2 in
      match net (NodeAddrToString addr) with
      | Err _ =>
          ([dial], datapayload,
           Some (CanNotConnectError
                   (NodeAddrToString addr ++ " is not available")%string))
      | Ok conn =>
          match conn.(copyResult) with
          | Some err =>
              ([dial; EvWrite data; EvClose], datapayload, Some err)
          | None =>
              let events := [dial; EvWrite data; EvReadAll; EvClose] in
              match conn.(readAllResult) with
              | (_, Some err) =>
                  (events, datapayload,
                   Some (CanNotSendError (Error err)))
              | (response, None) =>
                  match response with
                  | [] =>
                      (events, datapayload,
                       Some (NoResponseError
                               "Received 0 bytes as a response. Expected at least 1 byte"))
                  | status :: body =>
                      if negb (Z_of_byte status =? 1) then
                        match gobDecodeString body with
                        | (_, Some err) =>
                            (events, datapayload,
                             Some (CanNotParseResponseError (Error err)))
                        | (payload, None) =>
                            (events, datapayload,
                             Some (errorString payload))
                        end
                      else
                        match datapayload with
                        | Some v =>
                            match gobDecode body v with
                            | (v', Some err) =>
                                (events, Some v',
                                 Some (CanNotParseResponseError (Error err)))
                            | (v', None) => (events, Some v', None)
                            end
                        | None => (events, None, None)
                        end
                  end
              end
          end
      end
  end.

(** *** Decoding a request

    Modelled from the spec: the decoder of a command envelope is not
    under src/ (the node server reads requests).  The spec gives the
    layout and asks that decoding be the exact inverse of encoding and
    reject an envelope shorter than the fixed header.  [CommandLength]
    is the width of the identifier and [BytesToCommand] reads the name
    back from it. *)
Variable CommandLength : nat.
Variable BytesToCommand : list byte -> string.

Definition headerSize : nat := (CommandLength + 8)%nat.

Definition decodeEnvelope (request : list byte)
    : option (string * list byte * list byte) :=
  if (List.length request <? headerSize)%nat then None
  else
    let command := BytesToCommand (firstn CommandLength request) in
    let rest := skipn CommandLength request in
    let payloadlength := binary.Uint32 (firstn 4 rest) in
    let extralength := binary.Uint32 (firstn 4 (skipn 4 rest)) in
    let body := skipn 8 rest in
    let payload := firstn (Z.to_nat payloadlength) body in
    let extra :=
      firstn (Z.to_nat extralength) (skipn (Z.to_nat payloadlength) body) in
    Some (command, payload, extra).

End Client.

(** Modelled from the spec: [netlib.CommandToBytes] and its inverse are
    not under src/.  The spec asks for an identifier of fixed width in
    which every catalog name fits: the bytes of the name, filled up with
    zero bytes to the width (a longer name is cut), and read back by
    dropping the zero bytes. *)
Definition CommandToBytes_spec (width : nat) (command : string) : list byte :=
  firstn width (list_byte_of_string command ++ repeat x00 width).

Definition isZeroByte (b : byte) : bool := Byte.eqb b x00.

Definition BytesToCommand_spec (bytes : list byte) : string :=
  string_of_list_byte (filter (fun b => negb (isZeroByte b)) bytes).

(** A printed form of an address to run the statements on
    ([NodeAddrToString] is not under src/): host, colon, port. *)
Definition NodeAddrToString_spec (a : NodeAddr) : string :=
  (a.(Host) ++ ":" ++ decimal a.(Port))%string.

(** *** Names for the outcomes and sample values *)

(** The two errors of [CheckNodeAddress] and the one of an empty
    response. *)
Definition portError : error :=
  errorString "Node Address Port has wrong value".
Definition hostError : error :=
  errorString "Node Address Host has wrong value".
Definition noResponse : error :=
  NoResponseError "Received 0 bytes as a response. Expected at least 1 byte".

(** The socket operations of a wait-response call that got as far as
    reading. *)
Definition waitEvents (NodeAddrToString : NodeAddr -> string) (a : NodeAddr)
    (data : list byte) : list NetEvent :=
  [EvDial (NodeAddrToString a) 2; EvWrite data; EvReadAll; EvClose].

Definition addr (host : string) (port : Z) : NodeAddr :=
  {| Host := host; Port := port |}.

Definition local : NodeAddr := addr "localhost" 8765.

(** A request payload handed over as the bytes it encodes to, and a
    payload of [n] zero bytes. *)
Definition rawBytes (d : list byte) : result (list byte) := Ok d.

Definition zeros (n : Z) : list byte := repeat x00 (Z.to_nat n).

(** A peer that accepts every connection and answers as told. *)
Definition peer (copy : option error) (response : list byte)
    (readError : option error) : Network :=
  fun _ => Ok {| copyResult := copy; readAllResult := (response, readError) |}.


(** *** The commands

    The payload types of the commands.  Go lets two structs share a field
    name; here a field carries the name of its struct in front.  A
    [float64] is a [float], an [int] or [int64] a [Z], a [[][]byte] a
    list of lists. *)

Definition CommandAddresses : string := "addr".
Definition CommandGetConsensusData : string := "getcnsdata".
Definition CommandGetFirstBlocks : string := "getfblocks".
Definition CommandGetBalance : string := "getbalance".
Definition CommandGetState : string := "getstate".
Definition CommandGetUpdates : string := "getupdates".
Definition CommandGetTransaction : string := "gettransact".
Definition CommandCheckBlock : string := "checkblock".
Definition CommandGetBlock : string := "getblock".
Definition CommandBlock : string := "block".

Record ComAddresses : Type := {
  ComAddresses_AddrFrom : NodeAddr;
  ComAddresses_Addresses : list NodeAddr
}.

Record ComBlock : Type := {
  ComBlock_AddrFrom : NodeAddr;
  ComBlock_Block : list byte
}.

Record ComGetBlocks : Type := {
  ComGetBlocks_AddrFrom : NodeAddr;
  ComGetBlocks_StartFrom : list byte
}.

Record ComGetFirstBlocksData : Type := {
  ComGetFirstBlocksData_Blocks : list (list byte);
  ComGetFirstBlocksData_Height : Z
}.

Record ComGetConsensusData : Type := {
  ComGetConsensusData_ConfigFile : list byte;
  ComGetConsensusData_Module : list byte
}.

Record ComGetData : Type := {
  ComGetData_AddrFrom : NodeAddr;
  ComGetData_Type : string;
  ComGetData_ID : list byte
}.

Record ComWalletBalance : Type := {
  ComWalletBalance_Total : float;
  ComWalletBalance_Approved : float;
  ComWalletBalance_Pending : float
}.

Record ComGetWalletBalance : Type := {
  ComGetWalletBalance_Address : string
}.

Record ComNewTransaction : Type := {
  ComNewTransaction_Address : string;
  ComNewTransaction_TX : list byte
}.

Record ComNewTransactionData : Type := {
  ComNewTransactionData_Address : string;
  ComNewTransactionData_TX : list byte;
  ComNewTransactionData_Signature : list byte
}.

Record ComRequestTransaction : Type := {
  ComRequestTransaction_PubKey : list byte;
  ComRequestTransaction_To : string;
  ComRequestTransaction_Amount : float
}.

Record ComRequestSQLTransaction : Type := {
  ComRequestSQLTransaction_PubKey : list byte;
  ComRequestSQLTransaction_SQL : string
}.

Record ComRequestTransactionData : Type := {
  ComRequestTransactionData_Finished : bool;
  ComRequestTransactionData_TX : list byte;
  ComRequestTransactionData_DataToSign : list byte
}.

Record ComGetUnspentTransactions : Type := {
  ComGetUnspentTransactions_Address : string;
  ComGetUnspentTransactions_LastBlock : list byte
}.

Record ComUnspentTransaction : Type := {
  ComUnspentTransaction_TXID : list byte;
  ComUnspentTransaction_Vout : Z;
  ComUnspentTransaction_Amount : float;
  ComUnspentTransaction_IsBase : bool;
  ComUnspentTransaction_From : string
}.

Record ComUnspentTransactions : Type := {
  ComUnspentTransactions_Transactions : list ComUnspentTransaction;
  ComUnspentTransactions_LastBlock : list byte
}.

Record ComGetHistoryTransactions : Type := {
  ComGetHistoryTransactions_Address : string
}.

Record ComHistoryTransaction : Type := {
  ComHistoryTransaction_IOType : bool;
  ComHistoryTransaction_TXID : list byte;
  ComHistoryTransaction_Amount : float;
  ComHistoryTransaction_From : string;
  ComHistoryTransaction_To : string
}.

Record ComInv : Type := {
  ComInv_AddrFrom : NodeAddr;
  ComInv_Type : string;
  ComInv_Items : list (list byte)
}.

Record ComTx : Type := {
  ComTx_AddFrom : NodeAddr;
  ComTx_Transaction : list byte
}.

Record ComVersion : Type := {
  ComVersion_Version : Z;
  ComVersion_BestHeight : Z;
  ComVersion_AddrFrom : NodeAddr
}.

Record ComManageNode : Type := {
  ComManageNode_Node : NodeAddr
}.

Record ComGetNodeState : Type := {
  ComGetNodeState_Host : string;
  ComGetNodeState_BlocksNumber : Z;
  ComGetNodeState_ExpectingBlocksHeight : Z;
  ComGetNodeState_TransactionsCached : Z;
  ComGetNodeState_UnspentOutputs : Z
}.

Record ComGetUpdates : Type := {
  ComGetUpdates_LastCheckTime : Z;
  ComGetUpdates_CurrentBlockHeight : Z;
  ComGetUpdates_TopBlocks : list (list byte);
  ComGetUpdates_AddrFrom : NodeAddr
}.

Record ComGetTransaction : Type := {
  ComGetTransaction_TransactionID : list byte;
  ComGetTransaction_AddrFrom : NodeAddr
}.

Record ResponseGetTransaction : Type := {
  ResponseGetTransaction_Transaction : list byte
}.

Record ComCheckBlock : Type := {
  ComCheckBlock_BlockHash : list byte;
  ComCheckBlock_AddrFrom : NodeAddr
}.

Record ResponseCheckBlock : Type := {
  ResponseCheckBlock_Exists : bool
}.

Record ComGetBlock : Type := {
  ComGetBlock_BlockHash : list byte;
  ComGetBlock_AddrFrom : NodeAddr
}.

Record ResponseGetBlock : Type := {
  ResponseGetBlock_Block : list byte
}.

(** [netlib.GobEncode] and [gob]'s decoder work on a value of any type
    through reflection; neither is under src/.  A type that goes over the
    wire has an encoder and a decoder, the decoder giving what the
    destination holds afterwards and the error. *)
Class Gob (A : Type) : Type := {
  encodeGob : A -> result (list byte);
  decodeGob : list byte -> A -> A * option error
}.

(** A [nil] destination has no type of its own and nothing is decoded
    into it: the decoder of its stand-in is never called. *)
Definition gobNil : Gob unit :=
  {| encodeGob := fun _ => Ok []; decodeGob := fun _ v => (v, None) |}.

(** [SetAuthStr] and [SetNodeAddress] assign one field of the client. *)
Definition SetAuthStr (c : NodeClient) (auth : string) : NodeClient :=
  {| DataDir := c.(DataDir); NodeAddress := c.(NodeAddress);
     Address := c.(Address); NodeAuthStr := auth |}.

Definition SetNodeAddress (c : NodeClient) (address : NodeAddr) : NodeClient :=
  {| DataDir := c.(DataDir); NodeAddress := address;
     Address := c.(Address); NodeAuthStr := c.(NodeAuthStr) |}.

(** The first result of a call whose error is not looked at: the request,
    [nil] when the call failed. *)
Definition requestOf (r : result (list byte)) : list byte :=
  match r with
  | Ok request => request
  | Err _ => []
  end.

(** [errors.New(fmt.Sprintf(prefix + "%s", err.Error()))]. *)
Definition wrapError (prefix : string) (err : error) : error :=
  errorString (prefix ++ Error err)%string.

(** The bytes of the request that [doBuildCommandData] lays out for a
    payload and an extra sequence. *)
Definition frame (CommandToBytes : string -> list byte) (command : string)
    (payload extra : list byte) : list byte :=
  CommandToBytes command
    ++ binary.PutUint32 (uint32 (len payload))
    ++ binary.PutUint32 (uint32 (len extra))
    ++ payload ++ extra.

(** The peer at [addr] takes the request and answers with status 1 and
    [body]. *)
Definition answers (NodeAddrToString : NodeAddr -> string) (net : Network)
    (addr : NodeAddr) (conn : Conn) (body : list byte) : Prop :=
  CheckNodeAddress addr = None
  /\ net (NodeAddrToString addr) = Ok conn
  /\ conn.(copyResult) = None
  /\ conn.(readAllResult) = (x01 :: body, None).

Section Commands.

(** Declared in [lib/net], not under src/. *)
Variable NodeAddrToString : NodeAddr -> string.
Variable CommandToBytes : string -> list byte.
Variable NodeVersion : Z.
Variable NodeAddrShort : Type.

Record ResponseGetUpdates : Type := {
  ResponseGetUpdates_CurrentBlockHeight : Z;
  ResponseGetUpdates_CountTransactionsInPool : Z;
  ResponseGetUpdates_Blocks : list (list byte);
  ResponseGetUpdates_TransactionsInPool : list (list byte);
  ResponseGetUpdates_Nodes : list NodeAddrShort
}.

Context {gobString : Gob string}.
Context {gobBytes : Gob (list byte)}.
Context {gobNodeAddrs : Gob (list NodeAddr)}.
Context {gobComAddresses : Gob ComAddresses}.
Context {gobComBlock : Gob ComBlock}.
Context {gobComGetBlocks : Gob ComGetBlocks}.
Context {gobComGetFirstBlocksData : Gob ComGetFirstBlocksData}.
Context {gobComGetConsensusData : Gob ComGetConsensusData}.
Context {gobComGetData : Gob ComGetData}.
Context {gobComWalletBalance : Gob ComWalletBalance}.
Context {gobComGetWalletBalance : Gob ComGetWalletBalance}.
Context {gobComNewTransactionData : Gob ComNewTransactionData}.
Context {gobComRequestTransaction : Gob ComRequestTransaction}.
Context {gobComRequestSQLTransaction : Gob ComRequestSQLTransaction}.
Context {gobComRequestTransactionData : Gob ComRequestTransactionData}.
Context {gobComGetUnspentTransactions : Gob ComGetUnspentTransactions}.
Context {gobComUnspentTransactions : Gob ComUnspentTransactions}.
Context {gobComGetHistoryTransactions : Gob ComGetHistoryTransactions}.
Context {gobComHistoryTransactions : Gob (list ComHistoryTransaction)}.
Context {gobComInv : Gob ComInv}.
Context {gobComTx : Gob ComTx}.
Context {gobComVersion : Gob ComVersion}.
Context {gobComManageNode : Gob ComManageNode}.
Context {gobComGetNodeState : Gob ComGetNodeState}.
Context {gobComGetUpdates : Gob ComGetUpdates}.
Context {gobResponseGetUpdates : Gob ResponseGetUpdates}.
Context {gobComGetTransaction : Gob ComGetTransaction}.
Context {gobResponseGetTransaction : Gob ResponseGetTransaction}.
Context {gobComCheckBlock : Gob ComCheckBlock}.
Context {gobResponseCheckBlock : Gob ResponseCheckBlock}.
Context {gobComGetBlock : Gob ComGetBlock}.
Context {gobResponseGetBlock : Gob ResponseGetBlock}.

(** The calls of the client's own methods, with the encoder and the
    decoders of the types at hand. *)
Definition buildCommand {D : Type} `{Gob D} (command : string) (data : D)
    : result (list byte) :=
  BuildCommandData CommandToBytes D encodeGob command (Some data).

Definition buildCommandNil (command : string) : result (list byte) :=
  BuildCommandData CommandToBytes unit (fun _ => Ok []) command None.

Definition buildCommandWithAuth {D : Type} `{Gob D} (c : NodeClient)
    (command : string) (data : D) : result (list byte) :=
  BuildCommandDataWithAuth CommandToBytes D encodeGob c command (Some data).

Definition buildCommandWithAuthNil (c : NodeClient) (command : string)
    : result (list byte) :=
  BuildCommandDataWithAuth CommandToBytes unit (fun _ => Ok []) c command None.

Definition sendData (net : Network) (addr : NodeAddr) (data : list byte)
    : list NetEvent * option error :=
  SendData NodeAddrToString net addr data.

Definition waitResponse {T : Type} `{Gob T} (net : Network) (addr : NodeAddr)
    (data : list byte) (datapayload : option T)
    : list NetEvent * option T * option error :=
  SendDataWaitResponse NodeAddrToString T (fun body => decodeGob body "")
    decodeGob net addr data datapayload.

(** What a pointer passed to [waitResponse] points to afterwards. *)
Definition pointee {T : Type} (dest : option T) (zero : T) : T :=
  match dest with
  | Some v => v
  | None => zero
  end.

(** [SendVoid]: the identifier alone, with no length fields. *)
Definition SendVoid (c : NodeClient) (net : Network) (address : NodeAddr)
    : list NetEvent * option error :=
  let request := CommandToBytes "viod" in
  sendData net address request.

Definition SendAddrList (c : NodeClient) (net : Network) (address : NodeAddr)
    (addresses : list NodeAddr) : list NetEvent * option error :=
  let data := {| ComAddresses_AddrFrom := c.(NodeAddress);
                 ComAddresses_Addresses := addresses |} in
  match buildCommand CommandAddresses data with
  | Err err => ([], Some err)
  | Ok request => sendData net address request
  end.

Definition SendGetBlock (c : NodeClient) (net : Network) (addr : NodeAddr)
    (blockHash : list byte)
    : list NetEvent * option ResponseGetBlock * option error :=
  let data := {| ComGetBlock_BlockHash := blockHash;
                 ComGetBlock_AddrFrom := c.(NodeAddress) |} in
  match buildCommand CommandGetBlock data with
  | Err err => ([], None, Some err)
  | Ok request =>
      let datapayload := {| ResponseGetBlock_Block := [] |} in
      let '(events, dest, err) :=
        waitResponse net addr request (Some datapayload) in
      match err with
      | Some _ => (events, None, err)
      | None => (events, Some (pointee dest datapayload), None)
      end
  end.

Definition SendBlock (c : NodeClient) (net : Network) (addr : NodeAddr)
    (BlockSerialised : list byte) : list NetEvent * option error :=
  let data := {| ComBlock_AddrFrom := c.(NodeAddress);
                 ComBlock_Block := BlockSerialised |} in
  match buildCommand CommandBlock data with
  | Err err => ([], Some err)
  | Ok request => sendData net addr request
  end.

Definition SendInv (c : NodeClient) (net : Network) (address : NodeAddr)
    (kind : string) (items : list (list byte))
    : list NetEvent * option error :=
  let data := {| ComInv_AddrFrom := c.(NodeAddress); ComInv_Type := kind;
                 ComInv_Items := items |} in
  match buildCommand "inv" data with
  | Err err => ([], Some err)
  | Ok request => sendData net address request
  end.

Definition SendGetBlocks (c : NodeClient) (net : Network) (address : NodeAddr)
    (startfrom : list byte) : list NetEvent * option error :=
  let data := {| ComGetBlocks_AddrFrom := c.(NodeAddress);
                 ComGetBlocks_StartFrom := startfrom |} in
  match buildCommand "getblocks" data with
  | Err err => ([], Some err)
  | Ok request => sendData net address request
  end.

Definition SendGetBlocksUpper (c : NodeClient) (net : Network)
    (address : NodeAddr) (startfrom : list byte)
    : list NetEvent * option error :=
  let data := {| ComGetBlocks_AddrFrom := c.(NodeAddress);
                 ComGetBlocks_StartFrom := startfrom |} in
  match buildCommand "getblocksup" data with
  | Err err => ([], Some err)
  | Ok request => sendData net address request
  end.

Definition SendGetFirstBlocks (c : NodeClient) (net : Network)
    (address : NodeAddr)
    : list NetEvent * option ComGetFirstBlocksData * option error :=
  match buildCommandNil CommandGetFirstBlocks with
  | Err err => ([], None, Some err)
  | Ok request =>
      let datapayload := {| ComGetFirstBlocksData_Blocks := [];
                            ComGetFirstBlocksData_Height := 0 |} in
      let '(events, dest, err) :=
        waitResponse net address request (Some datapayload) in
      match err with
      | Some _ => (events, None, err)
      | None => (events, Some (pointee dest datapayload), None)
      end
  end.

Definition SendGetConsensusData (c : NodeClient) (net : Network)
    (address : NodeAddr)
    : list NetEvent * option ComGetConsensusData * option error :=
  match buildCommandNil CommandGetConsensusData with
  | Err err => ([], None, Some err)
  | Ok request =>
      let datapayload := {| ComGetConsensusData_ConfigFile := [];
                            ComGetConsensusData_Module := [] |} in
      let '(events, dest, err) :=
        waitResponse net address request (Some datapayload) in
      match err with
      | Some _ => (events, None, err)
      | None => (events, Some (pointee dest datapayload), None)
      end
  end.

Definition SendGetData (c : NodeClient) (net : Network) (address : NodeAddr)
    (kind : string) (id : list byte) : list NetEvent * option error :=
  let data := {| ComGetData_AddrFrom := c.(NodeAddress);
                 ComGetData_Type := kind; ComGetData_ID := id |} in
  match buildCommand "getdata" data with
  | Err err => ([], Some err)
  | Ok request => sendData net address request
  end.

Definition SendGetTransaction (c : NodeClient) (net : Network)
    (addr : NodeAddr) (txID : list byte)
    : list NetEvent * option ResponseGetTransaction * option error :=
  let data := {| ComGetTransaction_TransactionID := txID;
                 ComGetTransaction_AddrFrom := c.(NodeAddress) |} in
  match buildCommand CommandGetTransaction data with
  | Err err => ([], None, Some err)
  | Ok request =>
      let datapayload := {| ResponseGetTransaction_Transaction := [] |} in
      let '(events, dest, err) :=
        waitResponse net addr request (Some datapayload) in
      match err with
      | Some _ => (events, None, err)
      | None => (events, Some (pointee dest datapayload), None)
      end
  end.

Definition SendCheckBlock (c : NodeClient) (net : Network) (addr : NodeAddr)
    (hash : list byte)
    : list NetEvent * option ResponseCheckBlock * option error :=
  let data := {| ComCheckBlock_BlockHash := hash;
                 ComCheckBlock_AddrFrom := c.(NodeAddress) |} in
  match buildCommand CommandCheckBlock data with
  | Err err => ([], None, Some err)
  | Ok request =>
      let datapayload := {| ResponseCheckBlock_Exists := false |} in
      let '(events, dest, err) :=
        waitResponse net addr request (Some datapayload) in
      match err with
      | Some _ => (events, None, err)
      | None => (events, Some (pointee dest datapayload), None)
      end
  end.

Definition SendTx (c : NodeClient) (net : Network) (addr : NodeAddr)
    (tnxserialised : list byte) : list NetEvent * option error :=
  let data := {| ComTx_AddFrom := c.(NodeAddress);
                 ComTx_Transaction := tnxserialised |} in
  match buildCommand "tx" data with
  | Err err => ([], Some err)
  | Ok request => sendData net addr request
  end.

Definition SendVersion (c : NodeClient) (net : Network) (addr : NodeAddr)
    (bestHeight : Z) : list NetEvent * option error :=
  let data := {| ComVersion_Version := NodeVersion;
                 ComVersion_BestHeight := bestHeight;
                 ComVersion_AddrFrom := c.(NodeAddress) |} in
  match buildCommand "version" data with
  | Err err => ([], Some err)
  | Ok request => sendData net addr request
  end.

(** A slice result is [nil] on failure; [nil] and the empty slice are
    both the empty list. *)
Definition SendGetHistory (c : NodeClient) (net : Network) (addr : NodeAddr)
    (address : string)
    : list NetEvent * list ComHistoryTransaction * option error :=
  let data := {| ComGetHistoryTransactions_Address := address |} in
  match buildCommand "gethistory" data with
  | Err err => ([], [], Some err)
  | Ok request =>
      let datapayload := [] in
      let '(events, dest, err) :=
        waitResponse net addr request (Some datapayload) in
      match err with
      | Some _ => (events, [], err)
      | None => (events, pointee dest datapayload, None)
      end
  end.

Definition SendNewTransactionData (c : NodeClient) (net : Network)
    (addr : NodeAddr) (from : string) (txBytes signature : list byte)
    : list NetEvent * list byte * option error :=
  let data := {| ComNewTransactionData_Address := from;
                 ComNewTransactionData_TX := txBytes;
                 ComNewTransactionData_Signature := signature |} in
  let NewTXID := [] in
  match buildCommand "txdata" data with
  | Err err => ([], [], Some err)
  | Ok request =>
      let '(events, dest, err) :=
        waitResponse net addr request (Some NewTXID) in
      match err with
      | Some _ => (events, [], err)
      | None => (events, pointee dest NewTXID, None)
      end
  end.

Definition zeroRequestTransactionData : ComRequestTransactionData :=
  {| ComRequestTransactionData_Finished := false;
     ComRequestTransactionData_TX := [];
     ComRequestTransactionData_DataToSign := [] |}.

Definition SendRequestNewCurrencyTransaction (c : NodeClient) (net : Network)
    (addr : NodeAddr) (PubKey : list byte) (to : string) (amount : float)
    : list NetEvent * list byte * list byte * option error :=
  let data := {| ComRequestTransaction_PubKey := PubKey;
                 ComRequestTransaction_To := to;
                 ComRequestTransaction_Amount := amount |} in
  match buildCommand "txcurrequest" data with
  | Err err => ([], [], [], Some err)
  | Ok request =>
      let datapayload := zeroRequestTransactionData in
      let '(events, dest, err) :=
        waitResponse net addr request (Some datapayload) in
      match err with
      | Some _ => (events, [], [], err)
      | None =>
          let datapayload := pointee dest datapayload in
          (events, datapayload.(ComRequestTransactionData_TX),
           datapayload.(ComRequestTransactionData_DataToSign), None)
      end
  end.

Definition SendRequestNewSQLTransaction (c : NodeClient) (net : Network)
    (addr : NodeAddr) (PubKey : list byte) (sqlcommand : string)
    : list NetEvent * bool * list byte * list byte * option error :=
  let data := {| ComRequestSQLTransaction_PubKey := PubKey;
                 ComRequestSQLTransaction_SQL := sqlcommand |} in
  match buildCommand "txsqlrequest" data with
  | Err err => ([], false, [], [], Some err)
  | Ok request =>
      let datapayload := zeroRequestTransactionData in
      let '(events, dest, err) :=
        waitResponse net addr request (Some datapayload) in
      match err with
      | Some _ => (events, false, [], [], err)
      | None =>
          let datapayload := pointee dest datapayload in
          (events, datapayload.(ComRequestTransactionData_Finished),
           datapayload.(ComRequestTransactionData_TX),
           datapayload.(ComRequestTransactionData_DataToSign), None)
      end
  end.

Definition zeroUnspentTransactions : ComUnspentTransactions :=
  {| ComUnspentTransactions_Transactions := [];
     ComUnspentTransactions_LastBlock := [] |}.

(** From here on the error of the build is overwritten by the error of
    the call that follows, without having been looked at. *)
Definition SendGetUnspent (c : NodeClient) (net : Network) (addr : NodeAddr)
    (address : string) (chaintip : list byte)
    : list NetEvent * ComUnspentTransactions * option error :=
  let data := {| ComGetUnspentTransactions_Address := address;
                 ComGetUnspentTransactions_LastBlock := chaintip |} in
  let request := requestOf (buildCommand "getunspent" data) in
  let datapayload := zeroUnspentTransactions in
  let '(events, dest, err) :=
    waitResponse net addr request (Some datapayload) in
  match err with
  | Some _ => (events, zeroUnspentTransactions, err)
  | None => (events, pointee dest datapayload, None)
  end.

Definition zeroWalletBalance : ComWalletBalance :=
  {| ComWalletBalance_Total := 0%float;
     ComWalletBalance_Approved := 0%float;
     ComWalletBalance_Pending := 0%float |}.

Definition SendGetBalance (c : NodeClient) (net : Network) (addr : NodeAddr)
    (address : string)
    : list NetEvent * ComWalletBalance * option error :=
  let data := {| ComGetWalletBalance_Address := address |} in
  let request := requestOf (buildCommand CommandGetBalance data) in
  let datapayload := zeroWalletBalance in
  let '(events, dest, err) :=
    waitResponse net addr request (Some datapayload) in
  match err with
  | Some _ => (events, zeroWalletBalance, err)
  | None => (events, pointee dest datapayload, None)
  end.

Definition SendGetNodes (c : NodeClient) (net : Network)
    : list NetEvent * list NodeAddr * option error :=
  let request := requestOf (buildCommandNil "getnodes") in
  let datapayload := [] in
  let '(events, dest, err) :=
    waitResponse net c.(NodeAddress) request (Some datapayload) in
  match err with
  | Some err => (events, [], Some (wrapError "Get Nodes Response Error: " err))
  | None => (events, pointee dest datapayload, None)
  end.

Definition SendAddNode (c : NodeClient) (net : Network) (node : NodeAddr)
    : list NetEvent * option error :=
  let data := {| ComManageNode_Node := node |} in
  let request := requestOf (buildCommandWithAuth c "addnode" data) in
  let '(events, _, err) :=
    waitResponse (H := gobNil) net c.(NodeAddress) request None in
  match err with
  | Some err => (events, Some (wrapError "Add Node Response Error: " err))
  | None => (events, None)
  end.

Definition SendRemoveNode (c : NodeClient) (net : Network) (node : NodeAddr)
    : list NetEvent * option error :=
  let data := {| ComManageNode_Node := node |} in
  let request := requestOf (buildCommandWithAuth c "removenode" data) in
  let '(events, _, err) :=
    waitResponse (H := gobNil) net c.(NodeAddress) request None in
  match err with
  | Some err => (events, Some (wrapError "Remove Node Response Error: " err))
  | None => (events, None)
  end.

Definition zeroNodeState : ComGetNodeState :=
  {| ComGetNodeState_Host := ""; ComGetNodeState_BlocksNumber := 0;
     ComGetNodeState_ExpectingBlocksHeight := 0;
     ComGetNodeState_TransactionsCached := 0;
     ComGetNodeState_UnspentOutputs := 0 |}.

(** [SendGetState] returns [data] with the error as well. *)
Definition SendGetState (c : NodeClient) (net : Network)
    : list NetEvent * ComGetNodeState * option error :=
  let request := requestOf (buildCommandWithAuthNil c CommandGetState) in
  let data := zeroNodeState in
  let '(events, dest, err) :=
    waitResponse net c.(NodeAddress) request (Some data) in
  let data := pointee dest data in
  match err with
  | Some err => (events, data, Some (wrapError "gettig state error: " err))
  | None => (events, data, None)
  end.

Definition SendGetUpdates (c : NodeClient) (net : Network) (addr : NodeAddr)
    (lastCheckTime blockHeight : Z) (topBlocks : list (list byte))
    : list NetEvent * option ResponseGetUpdates * option error :=
  let data := {| ComGetUpdates_LastCheckTime := lastCheckTime;
                 ComGetUpdates_CurrentBlockHeight := blockHeight;
                 ComGetUpdates_TopBlocks := topBlocks;
                 ComGetUpdates_AddrFrom := c.(NodeAddress) |} in
  match buildCommand CommandGetUpdates data with
  | Err err => ([], None, Some err)
  | Ok request =>
      let datapayload := {| ResponseGetUpdates_CurrentBlockHeight := 0;
                            ResponseGetUpdates_CountTransactionsInPool := 0;
                            ResponseGetUpdates_Blocks := [];
                            ResponseGetUpdates_TransactionsInPool := [];
                            ResponseGetUpdates_Nodes := [] |} in
      let '(events, dest, err) :=
        waitResponse net addr request (Some datapayload) in
      match err with
      | Some _ => (events, None, err)
      | None => (events, Some (pointee dest datapayload), None)
      end
  end.

End Commands.

(** *** Sample clients and codecs *)

(** A client with an address of its own and an authorization string. *)
Definition client (address : NodeAddr) (auth : string) : NodeClient :=
  {| DataDir := ""; NodeAddress := address; Address := "";
     NodeAuthStr := auth |}.

(** An encoder and a decoder to run the statements on: every value is
    encoded as one byte and the decoder leaves the destination as it
    is, giving the error it is told to give. *)
Definition gobPlain (A : Type) (err : option error) : Gob A :=
  {| encodeGob := fun _ => Ok [x2a]; decodeGob := fun _ v => (v, err) |}.

Definition own : NodeClient := client local "secret".

Definition gobKeep (A : Type) : Gob A := gobPlain A None.

Definition gobFail (A : Type) : Gob A :=
  gobPlain A (Some (OpError "gob: type mismatch")).

End nodeclient.

(** ** encoding/base64 *)
Module base64.

(** The alphabet of [StdEncoding] and its padding character. *)
Definition encodeStd : string :=
  "ABCDEFGHIJKLMNOPQRSTUVWXYZabcdefghijklmnopqrstuvwxyz0123456789+/".

Definition padChar : byte := "=".

Fixpoint indexOf (c : byte) (alphabet : list byte) (i : Z) : option Z :=
  match alphabet with
  | [] => None
  | a :: rest => if Byte.eqb a c then Some i else indexOf c rest (i + 1)
  end.

(** [enc.decodeMap[c]]; [None] is the entry [0xff]. *)
Definition decodeMap (c : byte) : option Z :=
  indexOf c (list_byte_of_string encodeStd) 0.

Definition isNewline (c : byte) : bool :=
  Byte.eqb c "010" || Byte.eqb c "013".

(** The loop [for si < len(src) && (src[si] == '\n' || src[si] == '\r')]:
    the input left and the index reached. *)
Fixpoint skipNewlines (src : list byte) (si : Z) : list byte * Z :=
  match src with
  | c :: rest => if isNewline c then skipNewlines rest (si + 1) else (src, si)
  | [] => ([], si)
  end.

(** The end of [decodeQuantum]: the sextets read ([dlen] of them, the
    missing ones zero) give [dlen - 1] bytes. *)
Definition quantumBytes (dbuf : list Z) : list byte :=
  let d i := nth i dbuf 0 in
  let val :=
    Z.lor (Z.shiftl (d 0%nat) 18)
      (Z.lor (Z.shiftl (d 1%nat) 12)
         (Z.lor (Z.shiftl (d 2%nat) 6) (d 3%nat))) in
  firstn (List.length dbuf - 1)
    [ byte_of_Z (Z.shiftr val 16); byte_of_Z (Z.shiftr val 8); byte_of_Z val ].

(** What is left to do once a padding character has been accepted: skip
    newlines, report trailing input, and emit the bytes of the short
    quantum all the same. *)
Definition finishPadded (rest : list byte) (si : Z) (dbuf : list Z)
    (dst : list byte) : list byte * option error :=
  let '(rest', si') := skipNewlines rest si in
  (dst ++ quantumBytes dbuf,
   match rest' with
   | [] => None
   | _ :: _ => Some (CorruptInputError si')
   end).

(** [enc.Decode] for [StdEncoding] (padded, not strict), one input byte
    at a time: [src] is the input from index [si] on, [srclen] the length
    of the whole input, [dbuf] the sextets of the quantum being read and
    [dst] the bytes written so far.  The result is [dst[:n]] and the
    error. *)
Fixpoint decodeFrom (src : list byte) (si srclen : Z) (dbuf : list Z)
    (dst : list byte) : list byte * option error :=
  match src with
  | [] =>
      match dbuf with
      | [] => (dst, None)
      | _ :: _ => (dst, Some (CorruptInputError (si - len dbuf)))
      end
  | c :: rest =>
      match decodeMap c with
      | Some out =>
          let dbuf' := dbuf ++ [out] in
          if (List.length dbuf' =? 4)%nat
          then decodeFrom rest (si + 1) srclen [] (dst ++ quantumBytes dbuf')
          else decodeFrom rest (si + 1) srclen dbuf' dst
      | None =>
          if isNewline c then decodeFrom rest (si + 1) srclen dbuf dst
          else if negb (Byte.eqb c padChar)
          then (dst, Some (CorruptInputError si))
          else
            match dbuf with
            | [] | [_] => (dst, Some (CorruptInputError si))
            | [_; _] =>
                let '(rest', si') := skipNewlines rest (si + 1) in
                match rest' with
                | [] => (dst, Some (CorruptInputError srclen))
                | c' :: rest'' =>
                    if negb (Byte.eqb c' padChar)
                    then (dst, Some (CorruptInputError (si' - 1)))
                    else finishPadded rest'' (si' + 1) dbuf dst
                end
            | _ => finishPadded rest (si + 1) dbuf dst
            end
      end
  end.

(** [base64.StdEncoding.DecodeString(s)]. *)
Definition DecodeString (s : string) : list byte * option error :=
  let src := list_byte_of_string s in
  decodeFrom src 0 (len src) [] [].

End base64.

(** ** regexp *)
Module regexp.

(** The three expressions the code compiles have one shape: a literal
    marker, then [([^;]+);].  A [Regexp] is the marker.  The semicolon is
    one byte and is part of no longer character, so matching byte by byte
    finds the same texts as matching character by character. *)
Record Regexp : Type := { marker : string }.

(** [s] without the prefix [p], when it starts with it. *)
Fixpoint stripPrefix (p s : string) : option string :=
  match p, s with
  | EmptyString, _ => Some s
  | String a p', String b s' =>
      if Ascii.eqb a b then stripPrefix p' s' else None
  | String _ _, EmptyString => None
  end.

(** The longest run of characters other than [;] at the head of [s], and
    what follows it. *)
Fixpoint spanValue (s : string) : string * string :=
  match s with
  | EmptyString => (EmptyString, EmptyString)
  | String c s' =>
      if Ascii.eqb c ";" then (EmptyString, s)
      else let '(run, rest) := spanValue s' in (String c run, rest)
  end.

(** The match that starts at the head of [s], if there is one: the
    marker, at least one character other than [;], and a [;]. *)
Definition matchHere (re : Regexp) (s : string) : option string :=
  match stripPrefix re.(marker) s with
  | None => None
  | Some after =>
      match spanValue after with
      | (EmptyString, _) => None
      | (_, EmptyString) => None
      | (run, String _ _) => Some (re.(marker) ++ run ++ ";")%string
      end
  end.

(** Successive matches from left to right, none overlapping: after a
    match the next [skip] characters belong to it. *)
Fixpoint findAllFrom (re : Regexp) (s : string) (skip : nat) : list string :=
  match s with
  | EmptyString => []
  | String _ s' =>
      match skip with
      | S k => findAllFrom re s' k
      | O =>
          match matchHere re s with
          | Some m => m :: findAllFrom re s' (String.length m - 1)
          | None => findAllFrom re s' 0
          end
      end
  end.

(** [re.FindAllString(s, -1)]: the texts of all matches; no match gives
    the empty ([nil]) slice. *)
Definition FindAllString (re : Regexp) (s : string) : list string :=
  findAllFrom re s 0.

End regexp.

(** ** encoding/gob *)
Module gob.

(** A decoder to run the statements on: the gob stream of one
    string shorter than 128 bytes is a byte count, the type id of
    [string] (6, sent as [0x0c]), a zero byte, the length, the text. *)
Definition gobString (body : list byte) : string * option error :=
  match body with
  | n :: x0c :: x00 :: l :: text =>
      if (Z_of_byte n =? len text + 3) && (Z_of_byte l =? len text)
         && (len text <? 128)
      then (string_of_list_byte text, None)
      else ("", Some (OpError "gob: decoding error"))
  | _ => ("", Some (OpError "gob: decoding error"))
  end.

(** The same for a destination of type [string]; what the destination
    held is overwritten. *)
Definition gobStringInto (body : list byte) (_ : string)
    : string * option error :=
  gobString body.

(** The stream of the string ["boom"]. *)
Definition boomBody : list byte :=
  [x07; x0c; x00; x04] ++ list_byte_of_string "boom".

End gob.

(** ** lib: the query kinds *)
Module lib.

(** Modelled from the spec: the [QueryKind...] constants are declared in
    [lib], not under src/.  The spec names six kinds; they are six
    different strings, and a parser may report any other string. *)
Definition QueryKindSelect : string := "select".
Definition QueryKindUpdate : string := "update".
Definition QueryKindInsert : string := "insert".
Definition QueryKindDelete : string := "delete".
Definition QueryKindCreate : string := "create".
Definition QueryKindDrop : string := "drop".

End lib.

(** ** node/dbquery/sqlparser *)
Module sqlparser.

(** [SQLQueryParserInterface], as far as [QueryParsed] calls it. *)
Class SQLQueryParserInterface (P : Type) : Type := {
  GetKind : P -> string;
  GetTable : P -> string;
  GetComments : P -> list string
}.

(** A parsed statement given by the answers of its three methods. *)
Record Statement : Type := {
  stKind : string;
  stTable : string;
  stComments : list string
}.

#[export] Instance Statement_parser : SQLQueryParserInterface Statement := {
  GetKind := stKind;
  GetTable := stTable;
  GetComments := stComments
}.

End sqlparser.
Import sqlparser.

(** ** node/database *)
Module database.

(** Modelled from the spec: [database.Quote] is not under src/.  The spec
    says that quoting escapes an embedded quote: [a'b] becomes [a\'b]. *)
Fixpoint Quote_spec (s : string) : string :=
  match s with
  | EmptyString => EmptyString
  | String c s' =>
      if Ascii.eqb c "'" then String "\" (String "'" (Quote_spec s'))
      else String c (Quote_spec s')
  end.

End database.

(** ** node/dbquery *)
Module dbquery.

Section Parsed.

Context {P : Type} `{SQLQueryParserInterface P}.

(** [database.Quote], declared outside src/. *)
Variable Quote : string -> string.

Record QueryParsed : Type := {
  SQL : string;
  PubKey : list byte;
  Signature : list byte;
  TransactionBytes : list byte;
  KeyCol : string;
  KeyVal : string;
  RowBeforeQuery : list (string * string);
  Structure : P
}.

Definition ReferenceID (qp : QueryParsed) : string :=
  (GetTable qp.(Structure) ++ ":" ++ qp.(KeyVal))%string.

Definition GetKeyValue (qp : QueryParsed) : string := qp.(KeyVal).

(** The kind the parsed structure reports. *)
Definition kindOf (qp : QueryParsed) : string := GetKind qp.(Structure).

(** The five kinds [IsUpdate] lists. *)
Definition updateKind (k : string) : Prop :=
  k = lib.QueryKindCreate \/ k = lib.QueryKindDrop
  \/ k = lib.QueryKindDelete \/ k = lib.QueryKindInsert
  \/ k = lib.QueryKindUpdate.

Definition IsSelect (qp : QueryParsed) : bool :=
  String.eqb (GetKind qp.(Structure)) lib.QueryKindSelect.

Definition IsUpdate (qp : QueryParsed) : bool :=
  String.eqb (GetKind qp.(Structure)) lib.QueryKindCreate
  || String.eqb (GetKind qp.(Structure)) lib.QueryKindDrop
  || String.eqb (GetKind qp.(Structure)) lib.QueryKindDelete
  || String.eqb (GetKind qp.(Structure)) lib.QueryKindInsert
  || String.eqb (GetKind qp.(Structure)) lib.QueryKindUpdate.

Definition buildRollbackSQL (qp : QueryParsed) : string * option error :=
  if String.eqb (GetKind qp.(Structure)) lib.QueryKindCreate then
    (("DROP TABLE " ++ GetTable qp.(Structure))%string, None)
  else if String.eqb (GetKind qp.(Structure)) lib.QueryKindDrop then
    ("", None)
  else if String.eqb (GetKind qp.(Structure)) lib.QueryKindInsert then
    (("DELETE FROM " ++ GetTable qp.(Structure) ++ " WHERE "
        ++ qp.(KeyCol) ++ "='" ++ Quote qp.(KeyVal) ++ "'")%string, None)
  else ("", None).

(** One of the three blocks of [parseInfoFromComments]: the matches of
    the marker's expression in the comment and, when there are exactly
    two, the assignment [field, err = DecodeString(s[1])].  Otherwise
    the field keeps its value and [err] is the [nil] that
    [regexp.Compile] gave (the three expressions are well formed). *)
Definition decodeMarker (marker comment : string) (field : list byte)
    : list byte * option error :=
  let r := {| regexp.marker := marker |} in
  let s := regexp.FindAllString r comment in
  if (List.length s =? 2)%nat
  then base64.DecodeString (nth 1 s "")
  else (field, None).

(** [parseInfoFromComments], with its named results in the order of
    the source: [(PubKey, Signature, TransactionBytes, err)].  Every
    [return] is bare and gives the results their current values. *)
Definition parseInfoFromComments (qp : QueryParsed)
    : list byte * list byte * list byte * option error :=
  let PubKey := [] in
  let Signature := [] in
  let TransactionBytes := [] in
  let comments := GetComments qp.(Structure) in
  match comments with
  | [] => (PubKey, Signature, TransactionBytes, None)
  | comment :: _ =>
      let '(Signature, err) := decodeMarker "SIGN:" comment Signature in
      match err with
      | Some _ => (PubKey, Signature, TransactionBytes, err)
      | None =>
          let '(TransactionBytes, err) :=
            decodeMarker "DATA:" comment TransactionBytes in
          match err with
          | Some _ => (PubKey, Signature, TransactionBytes, err)
          | None =>
              let '(PubKey, err) :=
                decodeMarker "PUBKEY:" comment PubKey in
              (PubKey, Signature, TransactionBytes, err)
          end
      end
  end.

End Parsed.

(** A query whose parsed structure is given by its kind, table and
    comments; the other fields as stated. *)
Definition query (kind table : string) (comments : list string)
    (keyCol keyVal : string) : QueryParsed (P := Statement) :=
  {| SQL := ""; PubKey := []; Signature := []; TransactionBytes := [];
     KeyCol := keyCol; KeyVal := keyVal; RowBeforeQuery := [];
     Structure :=
       {| stKind := kind; stTable := table; stComments := comments |} |}.

(** [p] occurs in [s]. *)
Definition occurs (p s : string) : Prop :=
  exists before after, s = (before ++ p ++ after)%string.

(** The expression of [marker] has exactly two matches in [comment]. *)
Definition matchedTwice (marker comment : string) : Prop :=
  List.length (regexp.FindAllString {| regexp.marker := marker |} comment)
  = 2%nat.

(** The comment of the spec's example. *)
Definition envelopeComment : string :=
  "SIGN:c2lnbmF0dXJl;DATA:ZGF0YQ==;PUBKEY:cHVia2V5;".

End dbquery.

(** * Properties *)

(** ** The address check *)
Module AddressFacts.
Import nodeclient.

Lemma port_below_1024 (a : NodeAddr) :
  a.(Port) < 1024 -> CheckNodeAddress a = Some portError.
Proof.
  intros Hlow. unfold CheckNodeAddress.
  apply Z.ltb_lt in Hlow. now rewrite Hlow.
Qed.

Lemma port_above_65536 (a : NodeAddr) :
  65536 < a.(Port) -> CheckNodeAddress a = Some portError.
Proof.
  intros Hhigh. unfold CheckNodeAddress.
  destruct (Z.ltb_spec a.(Port) 1024) as [Hlt | Hge]; [reflexivity |].
  destruct (Z.gtb_spec a.(Port) 65536) as [Hgt | Hle]; [reflexivity | lia].
Qed.

Lemma port_in_range (a : NodeAddr) :
  1024 <= a.(Port) <= 65536 ->
  CheckNodeAddress a =
    if String.eqb a.(Host) "" then Some hostError else None.
Proof.
  intros [Hlo Hhi]. unfold CheckNodeAddress.
  destruct (Z.ltb_spec a.(Port) 1024) as [Hlt | Hge]; [lia |].
  destruct (Z.gtb_spec a.(Port) 65536) as [Hgt | Hle]; [lia | reflexivity].
Qed.

(** The check is one of three outcomes, whatever the address. *)
Lemma CheckNodeAddress_cases (a : NodeAddr) :
  CheckNodeAddress a = None
  \/ CheckNodeAddress a = Some portError
  \/ CheckNodeAddress a = Some hostError.
Proof.
  destruct (Z.lt_ge_cases a.(Port) 1024) as [Hlow | Hge].
  - right; left. now apply port_below_1024.
  - destruct (Z.lt_ge_cases 65536 a.(Port)) as [Hhigh | Hle].
    + right; left. now apply port_above_65536.
    + rewrite port_in_range by lia.
      destruct (String.eqb a.(Host) ""); auto.
Qed.

(** A call on an address that the check refuses touches no socket. *)
Lemma refused_address_no_socket
    (NodeAddrToString : NodeAddr -> string) (T : Type)
    (gobDecodeString : list byte -> string * option error)
    (gobDecode : list byte -> T -> T * option error)
    (net : Network) (a : NodeAddr) (data : list byte)
    (datapayload : option T) (err : error) :
  CheckNodeAddress a = Some err ->
  SendData NodeAddrToString net a data = ([], Some err)
  /\ SendDataWaitResponse NodeAddrToString T gobDecodeString gobDecode
       net a data datapayload = ([], datapayload, Some err).
Proof.
  intros Hcheck. unfold SendData, SendDataWaitResponse.
  now rewrite Hcheck.
Qed.

(** C1, as the code has it.  An address with a port from 1024 to 65535
    and a host that is not empty passes the check.  An address with a
    port below 1024 (port 0 among them) or above 65536 is refused with
    the port error, and an address with an empty host is refused (with
    the host error when its port passes the two port guards).  A refused
    address makes [SendData] and [SendDataWaitResponse] return that
    error without any socket operation. *)
Theorem CheckNodeAddress_accepts_1024_to_65535 (a : NodeAddr) :
  (1024 <= a.(Port) <= 65535 -> a.(Host) <> "" ->
     CheckNodeAddress a = None)
  /\ (a.(Port) < 1024 \/ 65536 < a.(Port) ->
        CheckNodeAddress a = Some portError)
  /\ (a.(Host) = "" ->
        CheckNodeAddress a = Some portError
        \/ CheckNodeAddress a = Some hostError)
  /\ (a.(Host) = "" -> 1024 <= a.(Port) <= 65536 ->
        CheckNodeAddress a = Some hostError)
  /\ (forall err, CheckNodeAddress a = Some err ->
        forall (NodeAddrToString : NodeAddr -> string) (T : Type)
               (gobDecodeString : list byte -> string * option error)
               (gobDecode : list byte -> T -> T * option error)
               (net : Network) (data : list byte) (datapayload : option T),
          SendData NodeAddrToString net a data = ([], Some err)
          /\ SendDataWaitResponse NodeAddrToString T gobDecodeString
               gobDecode net a data datapayload
             = ([], datapayload, Some err)).
Proof.
  repeat split.
  - intros Hport Hhost. rewrite port_in_range by lia.
    destruct (String.eqb_spec a.(Host) "") as [Heq | Hne];
      [contradiction | reflexivity].
  - intros [Hlow | Hhigh];
      [now apply port_below_1024 | now apply port_above_65536].
  - intros Hhost.
    destruct (CheckNodeAddress_cases a) as [Hnone | [Hp | Hh]]; auto.
    exfalso. revert Hnone. unfold CheckNodeAddress. rewrite Hhost.
    destruct (a.(Port) <? 1024); [discriminate |].
    destruct (a.(Port) >? 65536); discriminate.
  - intros Hhost Hport. rewrite port_in_range by assumption.
    now rewrite Hhost.
  - eapply refused_address_no_socket; eassumption.
  - eapply refused_address_no_socket; eassumption.
Qed.

Lemma CheckNodeAddress_accepts_1024_to_65535_witness :
  CheckNodeAddress (addr "localhost" 8765) = None
  /\ CheckNodeAddress (addr "localhost" 0) = Some portError
  /\ CheckNodeAddress (addr "" 8765) = Some hostError.
Proof.
  pose proof (CheckNodeAddress_accepts_1024_to_65535 (addr "localhost" 8765))
    as [Hok _].
  pose proof (CheckNodeAddress_accepts_1024_to_65535 (addr "localhost" 0))
    as [_ [Hport _]].
  pose proof (CheckNodeAddress_accepts_1024_to_65535 (addr "" 8765))
    as [_ [_ [_ [Hhost _]]]].
  split; [| split].
  - apply Hok; simpl; [lia | discriminate].
  - apply Hport; simpl; lia.
  - apply Hhost; simpl; [reflexivity | lia].
Defined.

(** C1 as stated fails at port 1024: the claim wants the address
    refused, the check accepts it. *)
Lemma CheckNodeAddress_port_1024_accepted :
  CheckNodeAddress (addr "localhost" 1024) = None.
Proof. reflexivity. Qed.

(** The upper guard compares with 65536, so that port passes too. *)
Lemma CheckNodeAddress_port_65536_accepted :
  CheckNodeAddress (addr "localhost" 65536) = None.
Proof. reflexivity. Qed.

End AddressFacts.

(** ** Waiting for a response *)
Module ResponseFacts.
Import nodeclient gob.

Section Wait.

Variable NodeAddrToString : NodeAddr -> string.
Variable T : Type.
Variable gobDecodeString : list byte -> string * option error.
Variable gobDecode : list byte -> T -> T * option error.

Abbreviation wait :=
  (SendDataWaitResponse NodeAddrToString T gobDecodeString gobDecode).

(** The call up to the point where the response has been read. *)
Lemma wait_response_read (net : Network) (a : NodeAddr)
    (data : list byte) (datapayload : option T) (conn : Conn)
    (response : list byte) :
  CheckNodeAddress a = None ->
  net (NodeAddrToString a) = Ok conn ->
  conn.(copyResult) = None ->
  conn.(readAllResult) = (response, None) ->
  wait net a data datapayload =
    match response with
    | [] => (waitEvents NodeAddrToString a data, datapayload, Some noResponse)
    | status :: body =>
        if negb (Z_of_byte status =? 1) then
          match gobDecodeString body with
          | (_, Some err) =>
              (waitEvents NodeAddrToString a data, datapayload,
               Some (CanNotParseResponseError (Error err)))
          | (payload, None) =>
              (waitEvents NodeAddrToString a data, datapayload, Some (errorString payload))
          end
        else
          match datapayload with
          | Some v =>
              match gobDecode body v with
              | (v', Some err) =>
                  (waitEvents NodeAddrToString a data, Some v',
                   Some (CanNotParseResponseError (Error err)))
              | (v', None) => (waitEvents NodeAddrToString a data, Some v', None)
              end
          | None => (waitEvents NodeAddrToString a data, None, None)
          end
    end.
Proof.
  intros Hcheck Hdial Hcopy Hread. unfold SendDataWaitResponse.
  rewrite Hcheck, Hdial, Hcopy, Hread. reflexivity.
Qed.

(** A call that returns no error has read at least one byte. *)
Lemma wait_success_inv (net : Network) (a : NodeAddr)
    (data : list byte) (datapayload out : option T)
    (events : list NetEvent) :
  wait net a data datapayload = (events, out, None) ->
  exists conn status body,
    net (NodeAddrToString a) = Ok conn
    /\ conn.(readAllResult) = (status :: body, None)
    /\ Z_of_byte status = 1.
Proof.
  unfold SendDataWaitResponse.
  destruct (CheckNodeAddress a); [discriminate |].
  destruct (net (NodeAddrToString a)) as [conn | e]; [| discriminate].
  destruct (copyResult conn); [discriminate |].
  destruct (readAllResult conn) as [response [e |]] eqn:Hread;
    [discriminate |].
  destruct response as [| status body]; [discriminate |].
  destruct (Z.eqb_spec (Z_of_byte status) 1) as [Hone | Hother]; simpl.
  - intros _. exists conn, status, body. auto.
  - destruct (gobDecodeString body) as [payload [e |]]; discriminate.
Qed.

(** C7.  When the address passes the check, the connection is
    established, the request is written and the peer closes the
    stream before any byte is read, the call returns the NoResponse
    error.  A call that returns no error has read a response of at
    least one byte. *)
Theorem SendDataWaitResponse_empty_is_NoResponse (net : Network)
    (a : NodeAddr) (data : list byte) (datapayload : option T) :
  (forall conn,
      CheckNodeAddress a = None ->
      net (NodeAddrToString a) = Ok conn ->
      conn.(copyResult) = None ->
      conn.(readAllResult) = ([], None) ->
      wait net a data datapayload
      = (waitEvents NodeAddrToString a data, datapayload, Some noResponse))
  /\ (forall events out,
         wait net a data datapayload = (events, out, None) ->
         exists conn status body,
           net (NodeAddrToString a) = Ok conn
           /\ conn.(readAllResult) = (status :: body, None)).
Proof.
  split.
  - intros conn Hcheck Hdial Hcopy Hread.
    now rewrite (wait_response_read net a data datapayload conn [])
      by assumption.
  - intros events out Hok.
    destruct (wait_success_inv _ _ _ _ _ _ Hok)
      as (conn & status & body & Hdial & Hread & _).
    now exists conn, status, body.
Qed.

(** C8.  For a response [status :: body] read by the call: when
    [status] is 1 and the caller passed a destination, [body] is
    gob-decoded into it and the call returns no error with the decoded
    value; when [status] is anything else, [body] is gob-decoded as a
    string and that string is the text of the error returned; a decoder
    error makes the call return CanNotParseResponse in both cases.
    With status 0 and a body that decodes to ["boom"] the error text is
    ["boom"]. *)
Theorem SendDataWaitResponse_status (net : Network) (a : NodeAddr)
    (data : list byte) (conn : Conn) (status : byte) (body : list byte) :
  CheckNodeAddress a = None ->
  net (NodeAddrToString a) = Ok conn ->
  conn.(copyResult) = None ->
  conn.(readAllResult) = (status :: body, None) ->
  (status = x01 ->
     forall v v',
       (gobDecode body v = (v', None) ->
          wait net a data (Some v) = (waitEvents NodeAddrToString a data, Some v', None))
       /\ (forall e, gobDecode body v = (v', Some e) ->
             snd (wait net a data (Some v))
             = Some (CanNotParseResponseError (Error e))))
  /\ (status <> x01 ->
        forall datapayload payload,
          (gobDecodeString body = (payload, None) ->
             wait net a data datapayload
             = (waitEvents NodeAddrToString a data, datapayload, Some (errorString payload))
             /\ Error (errorString payload) = payload)
          /\ (forall e, gobDecodeString body = (payload, Some e) ->
                wait net a data datapayload
                = (waitEvents NodeAddrToString a data, datapayload,
                   Some (CanNotParseResponseError (Error e)))))
  /\ (status = x00 -> gobDecodeString body = ("boom", None) ->
        forall datapayload,
          snd (wait net a data datapayload) = Some (errorString "boom")).
Proof.
  intros Hcheck Hdial Hcopy Hread.
  assert (Hone : status <> x01 -> (Z_of_byte status =? 1) = false).
  { intros Hne. apply Z.eqb_neq. intros Heq. apply Hne.
    apply (f_equal Z.to_N) in Heq. unfold Z_of_byte in Heq.
    rewrite N2Z.id in Heq. apply (f_equal Byte.of_N) in Heq.
    rewrite Byte.of_to_N in Heq. now injection Heq. }
  split; [| split].
  - intros -> v v'. split.
    + intros Hdec.
      rewrite (wait_response_read net a data (Some v) conn (x01 :: body))
        by assumption.
      simpl. now rewrite Hdec.
    + intros e Hdec.
      rewrite (wait_response_read net a data (Some v) conn (x01 :: body))
        by assumption.
      simpl. now rewrite Hdec.
  - intros Hne datapayload payload. split.
    + intros Hdec.
      rewrite (wait_response_read net a data datapayload conn
                 (status :: body)) by assumption.
      rewrite (Hone Hne). simpl. now rewrite Hdec.
    + intros e Hdec.
      rewrite (wait_response_read net a data datapayload conn
                 (status :: body)) by assumption.
      rewrite (Hone Hne). simpl. now rewrite Hdec.
  - intros -> Hdec datapayload.
    rewrite (wait_response_read net a data datapayload conn (x00 :: body))
      by assumption.
    simpl. now rewrite Hdec.
Qed.

(** With status 1 and no destination the body is not decoded. *)
Lemma wait_status_1_nil (net : Network) (a : NodeAddr)
    (data : list byte) (conn : Conn) (body : list byte) :
  CheckNodeAddress a = None ->
  net (NodeAddrToString a) = Ok conn ->
  conn.(copyResult) = None ->
  conn.(readAllResult) = (x01 :: body, None) ->
  wait net a data None = (waitEvents NodeAddrToString a data, None, None).
Proof.
  intros Hcheck Hdial Hcopy Hread.
  now rewrite (wait_response_read net a data None conn (x01 :: body))
    by assumption.
Qed.

End Wait.

Lemma SendDataWaitResponse_empty_is_NoResponse_witness :
  SendDataWaitResponse NodeAddrToString_spec string gobString gobStringInto
    (peer None [] None) local [] (Some "")
  = ([EvDial "localhost:8765" 2; EvWrite []; EvReadAll; EvClose],
     Some "", Some noResponse).
Proof.
  apply (proj1 (SendDataWaitResponse_empty_is_NoResponse
                  NodeAddrToString_spec string gobString gobStringInto
                  (peer None [] None) local [] (Some ""))
           {| copyResult := None; readAllResult := ([], None) |});
    reflexivity.
Defined.

Lemma SendDataWaitResponse_status_witness :
  snd (SendDataWaitResponse NodeAddrToString_spec string gobString
         gobStringInto (peer None (x00 :: boomBody) None) local [] None)
  = Some (errorString "boom").
Proof.
  apply (proj2 (proj2 (SendDataWaitResponse_status
                  NodeAddrToString_spec string gobString gobStringInto
                  (peer None (x00 :: boomBody) None) local []
                  {| copyResult := None;
                     readAllResult := (x00 :: boomBody, None) |}
                  x00 boomBody eq_refl eq_refl eq_refl eq_refl)));
    reflexivity.
Defined.

End ResponseFacts.

(** ** Framing a request *)
Module FramingFacts.
Import nodeclient.

Lemma Z_of_byte_range (b : byte) : 0 <= Z_of_byte b < 256.
Proof.
  unfold Z_of_byte. pose proof (Byte.to_N_bounded b). lia.
Qed.

Lemma Z_of_byte_of_Z (v : Z) : Z_of_byte (byte_of_Z v) = Z.land v 255.
Proof.
  unfold Z_of_byte, byte_of_Z.
  assert (Hr : 0 <= Z.land v 255 < 256).
  { change 255 with (Z.ones 8). rewrite Z.land_ones by lia.
    apply Z.mod_pos_bound. reflexivity. }
  destruct (Byte.of_N (Z.to_N (Z.land v 255))) as [b |] eqn:Hb.
  - apply Byte.to_of_N in Hb. rewrite Hb. lia.
  - apply Byte.of_N_None_iff in Hb. lia.
Qed.

(** Reading the four bytes back gives the value modulo [2^32]. *)
Lemma Uint32_PutUint32 (v : Z) :
  binary.Uint32 (binary.PutUint32 v) = v mod 2 ^ 32.
Proof.
  unfold binary.Uint32, binary.PutUint32.
  rewrite !Z_of_byte_of_Z.
  change 255 with (Z.ones 8).
  rewrite <- Z.land_ones by lia.
  Z.bitblast.
Qed.

Lemma PutUint32_length (v : Z) : List.length (binary.PutUint32 v) = 4%nat.
Proof. reflexivity. Qed.

Lemma uint32_mod (n : Z) : uint32 n mod 2 ^ 32 = n mod 2 ^ 32.
Proof. unfold uint32. apply Z.mod_mod. lia. Qed.

Lemma uint32_small (n : Z) : 0 <= n < 2 ^ 32 -> uint32 n = n.
Proof. intros Hn. unfold uint32. now apply Z.mod_small. Qed.

Lemma len_nonneg {A : Type} (l : list A) : 0 <= len l.
Proof. unfold len. lia. Qed.

Lemma len_zeros (n : Z) : 0 <= n -> len (zeros n) = n.
Proof.
  intros Hn. unfold len, zeros. rewrite repeat_length. now apply Z2Nat.id.
Qed.

Lemma firstn_exact {A : Type} (l r : list A) (n : nat) :
  List.length l = n -> firstn n (l ++ r) = l.
Proof.
  intros <-. now rewrite firstn_app, Nat.sub_diag, firstn_all, firstn_O,
    app_nil_r.
Qed.

Lemma skipn_exact {A : Type} (l r : list A) (n : nat) :
  List.length l = n -> skipn n (l ++ r) = r.
Proof.
  intros <-. now rewrite skipn_app, Nat.sub_diag, skipn_all, skipn_O.
Qed.

Section Framing.

Variable CommandToBytes : string -> list byte.
Variable D : Type.
Variable GobEncode : D -> result (list byte).

Abbreviation build := (doBuildCommandData CommandToBytes D GobEncode).

(** The request for a payload and an extra sequence, as a list. *)
Lemma build_payload (command : string) (data : option D)
    (payload extra : list byte) :
  payloadOf D GobEncode data payload ->
  build command data extra =
    Ok (CommandToBytes command
          ++ binary.PutUint32 (uint32 (len payload))
          ++ binary.PutUint32 (uint32 (len extra))
          ++ payload ++ extra).
Proof.
  intros Hpayload. unfold doBuildCommandData.
  assert (Henc : match data with
                 | Some d => GobEncode d
                 | None => Ok []
                 end = Ok payload).
  { destruct data as [d |]; simpl in Hpayload; [assumption | now subst]. }
  rewrite Henc. cbv zeta.
  destruct extra as [| b extra'].
  - simpl. now rewrite !app_nil_r, <- !app_assoc.
  - assert (Hpos : (len (b :: extra') >? 0) = true).
    { unfold len. simpl List.length. apply Z.gtb_lt. lia. }
    rewrite Hpos. now rewrite <- !app_assoc.
Qed.

(** An encoder error is the result of the call. *)
Lemma build_encoder_error (command : string) (d : D) (extra : list byte)
    (e : error) :
  GobEncode d = Err e -> build command (Some d) extra = Err e.
Proof.
  intros Henc. unfold doBuildCommandData. now rewrite Henc.
Qed.


Variable CommandLength : nat.
Variable BytesToCommand : list byte -> string.

Abbreviation decode := (decodeEnvelope CommandLength BytesToCommand).

(** Decoding a framed request, whatever the two length fields hold. *)
Lemma decode_frame (identifier : list byte) (a b : Z) (body : list byte) :
  List.length identifier = CommandLength ->
  decode (identifier ++ binary.PutUint32 a ++ binary.PutUint32 b ++ body) =
    Some (BytesToCommand identifier,
          firstn (Z.to_nat (a mod 2 ^ 32)) body,
          firstn (Z.to_nat (b mod 2 ^ 32))
            (skipn (Z.to_nat (a mod 2 ^ 32)) body)).
Proof.
  intros Hwidth. unfold decodeEnvelope, headerSize.
  rewrite <- (Uint32_PutUint32 a), <- (Uint32_PutUint32 b).
  pose proof (PutUint32_length a) as Hla.
  pose proof (PutUint32_length b) as Hlb.
  generalize dependent (binary.PutUint32 a). intros la Hla.
  generalize dependent (binary.PutUint32 b). intros lb Hlb.
  assert (Hlong : (List.length (identifier ++ la ++ lb ++ body)
                   <? CommandLength + 8)%nat = false).
  { apply Nat.ltb_ge. rewrite !length_app. lia. }
  rewrite Hlong.
  rewrite (firstn_exact identifier _ CommandLength Hwidth).
  rewrite (skipn_exact identifier _ CommandLength Hwidth).
  rewrite (firstn_exact la _ 4 Hla).
  rewrite (skipn_exact la _ 4 Hla).
  rewrite (firstn_exact lb _ 4 Hlb).
  change 8%nat with (4 + 4)%nat.
  rewrite <- (skipn_skipn 4 4).
  now rewrite (skipn_exact la _ 4 Hla), (skipn_exact lb _ 4 Hlb).
Qed.

(** C9, as the code has it.  When the identifier of the command name has
    the fixed width and is read back as the name, and the payload and the
    extra sequence are each shorter than [2^32] bytes, decoding the built
    request gives back the name, the payload and the extra sequence. *)
Theorem decodeEnvelope_doBuildCommandData (command : string)
    (data : option D) (payload extra : list byte) :
  payloadOf D GobEncode data payload ->
  List.length (CommandToBytes command) = CommandLength ->
  BytesToCommand (CommandToBytes command) = command ->
  len payload < 2 ^ 32 ->
  len extra < 2 ^ 32 ->
  exists request,
    build command data extra = Ok request
    /\ decode request = Some (command, payload, extra).
Proof.
  intros Hpayload Hwidth Hname Hp He.
  eexists. split; [exact (build_payload command data payload extra Hpayload) |].
  rewrite decode_frame by assumption.
  rewrite !uint32_mod.
  rewrite !Z.mod_small
    by (pose proof (len_nonneg payload); pose proof (len_nonneg extra); lia).
  unfold len. rewrite !Nat2Z.id.
  rewrite (firstn_exact payload extra _ eq_refl).
  rewrite (skipn_exact payload extra _ eq_refl).
  now rewrite firstn_all, Hname.
Qed.

End Framing.

(** *** The identifier of the spec *)

Lemma CommandToBytes_spec_length (width : nat) (command : string) :
  List.length (CommandToBytes_spec width command) = width.
Proof.
  unfold CommandToBytes_spec.
  rewrite length_firstn, length_app, repeat_length. lia.
Qed.

Lemma filter_zero_bytes (k n : nat) :
  filter (fun b => negb (isZeroByte b)) (firstn k (repeat x00 n)) = [].
Proof.
  revert k. induction n as [| n IH]; intros [| k]; try reflexivity.
  simpl. apply IH.
Qed.

Lemma filter_no_zero_byte (l : list byte) :
  Forall (fun b => b <> x00) l ->
  filter (fun b => negb (isZeroByte b)) l = l.
Proof.
  induction 1 as [| b l Hb _ IH]; [reflexivity |].
  simpl. unfold isZeroByte at 1.
  destruct (Byte.eqb b x00) eqn:Heq.
  - apply Byte.byte_dec_bl in Heq. contradiction.
  - simpl. now rewrite IH.
Qed.

(** A name that fits the width and holds no zero byte is read back from
    its identifier. *)
Lemma BytesToCommand_spec_inverse (width : nat) (command : string) :
  (List.length (list_byte_of_string command) <= width)%nat ->
  Forall (fun b => b <> x00) (list_byte_of_string command) ->
  BytesToCommand_spec (CommandToBytes_spec width command) = command.
Proof.
  intros Hfits Hnz. unfold BytesToCommand_spec, CommandToBytes_spec.
  rewrite firstn_app, firstn_all2 by assumption.
  rewrite filter_app, filter_zero_bytes, app_nil_r.
  rewrite filter_no_zero_byte by assumption.
  apply string_of_list_byte_of_string.
Qed.


Lemma decodeEnvelope_doBuildCommandData_witness :
  exists request,
    doBuildCommandData (CommandToBytes_spec 12) (list byte) rawBytes
      "addr" (Some [x01; x02; x03]) [x61] = Ok request
    /\ decodeEnvelope 12 BytesToCommand_spec request
       = Some ("addr", [x01; x02; x03], [x61]).
Proof.
  apply (decodeEnvelope_doBuildCommandData (CommandToBytes_spec 12)
           (list byte) rawBytes 12 BytesToCommand_spec "addr"
           (Some [x01; x02; x03]) [x01; x02; x03] [x61]);
    reflexivity.
Defined.

(** A payload of zero bytes whose length is a positive multiple of [2^32]
    has 0 in its length field, and the decoder gives back an empty
    payload. *)
Lemma zeros_not_nil (n : Z) : 0 < n -> [] <> zeros n.
Proof.
  intros Hn Heq. apply (f_equal len) in Heq.
  rewrite len_zeros in Heq by lia. unfold len in Heq. simpl in Heq. lia.
Qed.

Lemma decode_wrapped_payload (n : Z) :
  0 < n -> n mod 2 ^ 32 = 0 ->
  exists request,
    doBuildCommandData (CommandToBytes_spec 12) (list byte) rawBytes
      "addr" (Some (zeros n)) [] = Ok request
    /\ decodeEnvelope 12 BytesToCommand_spec request
       <> Some ("addr", zeros n, []).
Proof.
  intros Hpos Hmod. eexists. split.
  - exact (build_payload (CommandToBytes_spec 12) (list byte) rawBytes
             "addr" (Some (zeros n)) (zeros n) [] eq_refl).
  - rewrite decode_frame by apply CommandToBytes_spec_length.
    rewrite len_zeros by lia.
    rewrite uint32_mod, Hmod.
    intros Heq.
    apply (f_equal (fun r => match r with
                             | Some (_, payload, _) => payload
                             | None => []
                             end)) in Heq.
    revert Heq. apply zeros_not_nil. exact Hpos.
Qed.

(** No decoder could do better: with such a payload, the request is the
    one built for an empty payload and these bytes as the extra
    sequence. *)
Lemma build_wrapped_not_injective (n : Z) :
  0 < n -> n mod 2 ^ 32 = 0 ->
  doBuildCommandData (CommandToBytes_spec 12) (list byte) rawBytes
    "addr" (Some (zeros n)) []
  = doBuildCommandData (CommandToBytes_spec 12) (list byte) rawBytes
      "addr" (Some []) (zeros n).
Proof.
  intros Hpos Hmod.
  rewrite (build_payload (CommandToBytes_spec 12) (list byte) rawBytes
             "addr" (Some (zeros n)) (zeros n) [] eq_refl).
  rewrite (build_payload (CommandToBytes_spec 12) (list byte) rawBytes
             "addr" (Some []) [] (zeros n) eq_refl).
  rewrite len_zeros by lia. unfold uint32 at 1 4. rewrite Hmod.
  now rewrite app_nil_r.
Qed.

(** C9 as stated fails for a payload of [2^32] zero bytes. *)
Lemma decodeEnvelope_loses_payload_of_2_pow_32_bytes :
  exists request,
    doBuildCommandData (CommandToBytes_spec 12) (list byte) rawBytes
      "addr" (Some (zeros 4294967296)) [] = Ok request
    /\ decodeEnvelope 12 BytesToCommand_spec request
       <> Some ("addr", zeros 4294967296, []).
Proof.
  apply (decode_wrapped_payload 4294967296); [lia | reflexivity].
Qed.

End FramingFacts.

(** ** Classification and rollback *)
Module QueryFacts.
Import dbquery.

Section Kinds.

Context {P : Type} `{SQLQueryParserInterface P}.

Lemma IsUpdate_iff (qp : QueryParsed) :
  IsUpdate qp = true <-> updateKind (kindOf qp).
Proof.
  unfold IsUpdate, updateKind, kindOf.
  rewrite !orb_true_iff, !String.eqb_eq. tauto.
Qed.

Lemma IsSelect_iff (qp : QueryParsed) :
  IsSelect qp = true <-> kindOf qp = lib.QueryKindSelect.
Proof. unfold IsSelect, kindOf. apply String.eqb_eq. Qed.

Lemma select_is_no_update_kind : ~ updateKind lib.QueryKindSelect.
Proof.
  unfold updateKind. intros [Hk | [Hk | [Hk | [Hk | Hk]]]]; discriminate Hk.
Qed.

(** C5, as the code has it.  [IsUpdate] holds exactly for the kinds
    Create, Drop, Delete, Insert and Update, and [IsSelect] holds exactly
    for the kind Select; no query is both, and a query whose kind is none
    of the six is neither. *)
Theorem IsUpdate_IsSelect_by_kind (qp : QueryParsed) :
  (IsUpdate qp = true <-> updateKind (kindOf qp))
  /\ (IsSelect qp = true <-> kindOf qp = lib.QueryKindSelect)
  /\ (IsSelect qp = true -> IsUpdate qp = false)
  /\ (~ updateKind (kindOf qp) -> kindOf qp <> lib.QueryKindSelect ->
        IsSelect qp = false /\ IsUpdate qp = false).
Proof.
  split; [apply IsUpdate_iff |].
  split; [apply IsSelect_iff |].
  split.
  - intros Hsel. apply IsSelect_iff in Hsel.
    apply not_true_is_false. intros Hup. apply IsUpdate_iff in Hup.
    rewrite Hsel in Hup. now apply select_is_no_update_kind.
  - intros Hup Hsel. split; apply not_true_is_false; intros Hk.
    + now apply IsSelect_iff in Hk.
    + now apply IsUpdate_iff in Hk.
Qed.

(** *** Rollback *)

Variable Quote : string -> string.

Lemma buildRollbackSQL_create (qp : QueryParsed) :
  kindOf qp = lib.QueryKindCreate ->
  buildRollbackSQL Quote qp =
    (("DROP TABLE " ++ GetTable qp.(Structure))%string, None).
Proof.
  unfold kindOf, buildRollbackSQL. now intros ->.
Qed.

Lemma buildRollbackSQL_insert (qp : QueryParsed) :
  kindOf qp = lib.QueryKindInsert ->
  buildRollbackSQL Quote qp =
    (("DELETE FROM " ++ GetTable qp.(Structure) ++ " WHERE "
        ++ qp.(KeyCol) ++ "='" ++ Quote qp.(KeyVal) ++ "'")%string, None).
Proof.
  unfold kindOf, buildRollbackSQL. now intros ->.
Qed.

(** Any kind other than Create and Insert gives the empty string. *)
Lemma buildRollbackSQL_other (qp : QueryParsed) :
  kindOf qp <> lib.QueryKindCreate ->
  kindOf qp <> lib.QueryKindInsert ->
  buildRollbackSQL Quote qp = ("", None).
Proof.
  unfold kindOf, buildRollbackSQL. intros Hc Hi.
  apply String.eqb_neq in Hc, Hi. rewrite Hc, Hi.
  now destruct (String.eqb _ lib.QueryKindDrop).
Qed.

(** C10.  [buildRollbackSQL] returns a [nil] error for every query and
    every quoting function. *)
Theorem buildRollbackSQL_error_is_nil (qp : QueryParsed) :
  snd (buildRollbackSQL Quote qp) = None.
Proof.
  unfold buildRollbackSQL.
  repeat match goal with
         | |- context [if ?b then _ else _] => destruct b
         end; reflexivity.
Qed.

End Kinds.

(** C3, as the code has it.  For a Create the result is [DROP TABLE] and
    the table; for an Insert it is [DELETE FROM], the table, [ WHERE ], the
    key column, [='], the quoted key value and ['], with no blank on
    either side of the equals sign; for a Drop, an Update or a Delete it is
    the empty string; the error is [nil] in all cases.  With the quoting of
    the spec, the Insert into [users] with key column [id] and key value
    [a'b] gives [DELETE FROM users WHERE id='a\'b']. *)
Theorem buildRollbackSQL_by_kind :
  (forall (P : Type) (I : SQLQueryParserInterface P)
          (Quote : string -> string) (qp : QueryParsed),
      (kindOf qp = lib.QueryKindCreate ->
         buildRollbackSQL Quote qp =
           (("DROP TABLE " ++ GetTable qp.(Structure))%string, None))
      /\ (kindOf qp = lib.QueryKindInsert ->
            buildRollbackSQL Quote qp =
              (("DELETE FROM " ++ GetTable qp.(Structure) ++ " WHERE "
                  ++ qp.(KeyCol) ++ "='" ++ Quote qp.(KeyVal) ++ "'")%string,
               None))
      /\ (kindOf qp = lib.QueryKindDrop \/ kindOf qp = lib.QueryKindUpdate
          \/ kindOf qp = lib.QueryKindDelete ->
            buildRollbackSQL Quote qp = ("", None)))
  /\ buildRollbackSQL database.Quote_spec
       (query lib.QueryKindInsert "users" [] "id" "a'b")
     = ("DELETE FROM users WHERE id='a\'b'", None)
  /\ buildRollbackSQL database.Quote_spec
       (query lib.QueryKindCreate "t" [] "" "")
     = ("DROP TABLE t", None)
  /\ buildRollbackSQL database.Quote_spec
       (query lib.QueryKindDrop "t" [] "" "")
     = ("", None).
Proof.
  split; [| repeat split].
  intros P I Quote qp. split; [| split].
  - apply buildRollbackSQL_create.
  - apply buildRollbackSQL_insert.
  - intros Hk. apply buildRollbackSQL_other;
      intros Heq; rewrite Heq in Hk;
      destruct Hk as [Hk | [Hk | Hk]]; discriminate Hk.
Qed.

Lemma buildRollbackSQL_by_kind_witness :
  buildRollbackSQL database.Quote_spec
    (query lib.QueryKindInsert "accounts" [] "name" "O'Neil")
  = ("DELETE FROM accounts WHERE name='O\'Neil'", None).
Proof.
  exact (proj1 (proj2 (proj1 buildRollbackSQL_by_kind Statement _
                         database.Quote_spec
                         (query lib.QueryKindInsert "accounts" []
                            "name" "O'Neil"))) eq_refl).
Defined.

(** C3 as stated fails on the form of the Insert rollback: the statement
    with a blank on each side of the equals sign is not what is built. *)
Lemma buildRollbackSQL_insert_has_no_blanks :
  fst (buildRollbackSQL database.Quote_spec
         (query lib.QueryKindInsert "users" [] "id" "a'b"))
  <> ("DELETE FROM users WHERE id = '"
        ++ database.Quote_spec "a'b" ++ "'")%string.
Proof. discriminate. Qed.

Lemma IsUpdate_IsSelect_by_kind_witness :
  IsSelect (query "show" "users" [] "" "") = false
  /\ IsUpdate (query "show" "users" [] "" "") = false.
Proof.
  apply (proj2 (proj2 (proj2
           (IsUpdate_IsSelect_by_kind (query "show" "users" [] "" ""))))).
  - unfold updateKind.
    intros [Hk | [Hk | [Hk | [Hk | Hk]]]]; discriminate Hk.
  - discriminate.
Defined.

(** The reference of a row is its table, a colon and its key value. *)
Lemma ReferenceID_accounts_42 :
  ReferenceID (query lib.QueryKindUpdate "accounts" [] "id" "42")
  = "accounts:42".
Proof. reflexivity. Qed.

(** C5 as stated fails for a kind outside the six: the query is not
    classified as a Select (nor as an Update). *)
Lemma kind_show_is_not_select :
  kindOf (query "show" "users" [] "" "") <> lib.QueryKindCreate
  /\ kindOf (query "show" "users" [] "" "") <> lib.QueryKindDrop
  /\ kindOf (query "show" "users" [] "" "") <> lib.QueryKindDelete
  /\ kindOf (query "show" "users" [] "" "") <> lib.QueryKindInsert
  /\ kindOf (query "show" "users" [] "" "") <> lib.QueryKindUpdate
  /\ IsSelect (query "show" "users" [] "" "") = false.
Proof. repeat split; discriminate. Qed.

End QueryFacts.

(** ** The envelope in the first comment *)
Module EnvelopeFacts.
Import dbquery.

(** *** The matches of a marker's expression *)

Lemma stripPrefix_Some (p s r : string) :
  regexp.stripPrefix p s = Some r -> s = (p ++ r)%string.
Proof.
  revert s. induction p as [| a p IH]; intros s Hs; simpl in Hs.
  - now injection Hs as ->.
  - destruct s as [| b s]; [discriminate |].
    destruct (Ascii.eqb_spec a b) as [-> | _]; [| discriminate].
    simpl. f_equal. now apply IH.
Qed.

(** A match is the marker, a value and a semicolon. *)
Lemma matchHere_shape (re : regexp.Regexp) (s m : string) :
  regexp.matchHere re s = Some m ->
  exists value, m = (re.(regexp.marker) ++ value ++ ";")%string.
Proof.
  unfold regexp.matchHere.
  destruct (regexp.stripPrefix _ s) as [after |]; [| discriminate].
  destruct (regexp.spanValue after) as [run rest].
  destruct run as [| c run]; [discriminate |].
  destruct rest; [discriminate |].
  intros Hm. injection Hm as <-. now exists (String c run).
Qed.

Lemma findAllFrom_shape (re : regexp.Regexp) (s : string) (skip : nat)
    (m : string) :
  In m (regexp.findAllFrom re s skip) ->
  exists value, m = (re.(regexp.marker) ++ value ++ ";")%string.
Proof.
  revert skip. induction s as [| c s IH]; intros skip Hin; simpl in Hin.
  - contradiction.
  - destruct skip as [| k]; [| now apply IH in Hin].
    destruct (regexp.matchHere re (String c s)) as [m' |] eqn:Hm.
    + destruct Hin as [<- | Hin];
        [now apply matchHere_shape in Hm | now apply IH in Hin].
    + now apply IH in Hin.
Qed.

Lemma FindAllString_shape (re : regexp.Regexp) (s m : string) :
  In m (regexp.FindAllString re s) ->
  exists value, m = (re.(regexp.marker) ++ value ++ ";")%string.
Proof. apply findAllFrom_shape. Qed.

Lemma not_occurs_tail (p : string) (c : ascii) (s : string) :
  ~ occurs p (String c s) -> ~ occurs p s.
Proof.
  intros Hno (before & after & ->). apply Hno.
  now exists (String c before), after.
Qed.

(** A comment in which the marker does not occur has no match. *)
Lemma FindAllString_no_marker (re : regexp.Regexp) (s : string) :
  ~ occurs re.(regexp.marker) s -> regexp.FindAllString re s = [].
Proof.
  unfold regexp.FindAllString. generalize 0%nat as skip.
  induction s as [| c s IH]; intros skip Hno; [reflexivity |].
  simpl. pose proof (not_occurs_tail _ _ _ Hno) as Hno'.
  destruct skip as [| k]; [| now apply IH].
  unfold regexp.matchHere.
  destruct (regexp.stripPrefix _ (String c s)) as [after |] eqn:Hp.
  - exfalso. apply Hno. apply stripPrefix_Some in Hp.
    now exists EmptyString, after.
  - now apply IH.
Qed.

(** *** Decoding the text of a match

    The text of a match starts with the marker and holds its colon, which
    is no base64 character: the decoder stops there. *)

Lemma DecodeString_SIGN (rest : string) :
  base64.DecodeString ("SIGN:" ++ rest)
  = ([x48; x81; x8d], Some (CorruptInputError 4)).
Proof. reflexivity. Qed.

Lemma DecodeString_DATA (rest : string) :
  base64.DecodeString ("DATA:" ++ rest)
  = ([x0c; x04; xc0], Some (CorruptInputError 4)).
Proof. reflexivity. Qed.

Lemma DecodeString_PUBKEY (rest : string) :
  base64.DecodeString ("PUBKEY:" ++ rest)
  = ([x3d; x40; x4a], Some (CorruptInputError 6)).
Proof. reflexivity. Qed.

(** The decoder itself reads the values of the three markers. *)
Lemma DecodeString_values :
  base64.DecodeString "c2lnbmF0dXJl" = (list_byte_of_string "signature", None)
  /\ base64.DecodeString "ZGF0YQ==" = (list_byte_of_string "data", None)
  /\ base64.DecodeString "cHVia2V5" = (list_byte_of_string "pubkey", None).
Proof. repeat split. Qed.

Section Extraction.

Context {P : Type} `{SQLQueryParserInterface P}.

(** A block either leaves its field alone or fails. *)
Lemma decodeMarker_cases (marker comment : string) (field : list byte) :
  marker = "SIGN:" \/ marker = "DATA:" \/ marker = "PUBKEY:" ->
  decodeMarker marker comment field = (field, None)
  \/ exists bytes pos,
       decodeMarker marker comment field
       = (bytes, Some (CorruptInputError pos)).
Proof.
  intros Hmarker. unfold decodeMarker.
  destruct (List.length _ =? 2)%nat eqn:Htwo; [right | now left].
  apply Nat.eqb_eq in Htwo.
  set (s := regexp.FindAllString _ comment) in *.
  assert (Hin : In (nth 1 s "") s) by (apply nth_In; lia).
  apply FindAllString_shape in Hin. destruct Hin as [value ->].
  simpl regexp.marker.
  destruct Hmarker as [-> | [-> | ->]]; eexists; eexists;
    [apply DecodeString_SIGN | apply DecodeString_DATA
     | apply DecodeString_PUBKEY].
Qed.

Lemma decodeMarker_no_error (marker comment : string)
    (field bytes : list byte) :
  marker = "SIGN:" \/ marker = "DATA:" \/ marker = "PUBKEY:" ->
  decodeMarker marker comment field = (bytes, None) -> bytes = field.
Proof.
  intros Hmarker Hdec.
  destruct (decodeMarker_cases marker comment field Hmarker)
    as [Hsame | (b & pos & Hfail)]; rewrite Hdec in *.
  - now injection Hsame.
  - discriminate Hfail.
Qed.

(** X23.  Whatever the query, a call that returns no error returns three empty
    fields: no envelope is ever extracted. *)
Theorem parseInfoFromComments_extracts_nothing (qp : QueryParsed)
    (pubKey signature transactionBytes : list byte) :
  parseInfoFromComments qp = (pubKey, signature, transactionBytes, None) ->
  pubKey = [] /\ signature = [] /\ transactionBytes = [].
Proof.
  unfold parseInfoFromComments.
  destruct (GetComments _) as [| comment rest].
  { intros Heq. injection Heq as <- <- <-. auto. }
  destruct (decodeMarker "SIGN:" comment []) as [sg [e |]] eqn:Hs;
    [discriminate |].
  destruct (decodeMarker "DATA:" comment []) as [tx [e |]] eqn:Hd;
    [discriminate |].
  destruct (decodeMarker "PUBKEY:" comment []) as [pk e] eqn:Hp.
  intros Heq. injection Heq as <- <- <- ->.
  apply decodeMarker_no_error in Hs, Hd, Hp; auto.
Qed.

(** X24.  No comment, or a first comment in which none of the three markers
    occurs: three empty fields and no error. *)
Theorem parseInfoFromComments_no_marker (qp : QueryParsed) :
  (GetComments qp.(Structure) = [] ->
     parseInfoFromComments qp = ([], [], [], None))
  /\ (forall comment rest,
         GetComments qp.(Structure) = comment :: rest ->
         ~ occurs "SIGN:" comment -> ~ occurs "DATA:" comment ->
         ~ occurs "PUBKEY:" comment ->
         parseInfoFromComments qp = ([], [], [], None)).
Proof.
  unfold parseInfoFromComments. split.
  - now intros ->.
  - intros comment rest -> Hs Hd Hp. unfold decodeMarker.
    rewrite !FindAllString_no_marker by assumption. reflexivity.
Qed.


End Extraction.

(** In the comment of the spec's example each marker has one match, so no
    block decodes anything. *)
Lemma envelopeComment_matches :
  regexp.FindAllString {| regexp.marker := "SIGN:" |} envelopeComment
  = ["SIGN:c2lnbmF0dXJl;"]
  /\ regexp.FindAllString {| regexp.marker := "DATA:" |} envelopeComment
     = ["DATA:ZGF0YQ==;"]
  /\ regexp.FindAllString {| regexp.marker := "PUBKEY:" |} envelopeComment
     = ["PUBKEY:cHVia2V5;"].
Proof. repeat split. Qed.

(** C2 at the comment of the spec's example: the three fields come back
    empty, with no error. *)
Theorem parseInfoFromComments_envelopeComment :
  parseInfoFromComments
    (query lib.QueryKindInsert "users" [envelopeComment] "id" "1")
  = ([], [], [], None).
Proof. reflexivity. Qed.

(** A single marker with a value that is no base64 gives no error. *)
Lemma parseInfoFromComments_bad_value_once :
  parseInfoFromComments
    (query lib.QueryKindInsert "users" ["SIGN:!;"] "id" "1")
  = ([], [], [], None).
Proof. reflexivity. Qed.



End EnvelopeFacts.

(** ** The two calls, whatever the peer does *)
Module ClientFacts.
Import nodeclient.

(** X1.  The check accepts exactly the addresses with a port from 1024 to
    65536 and a host that is not empty; a port outside that range gives
    the port error whatever the host, and the host error is given only
    for an empty host with a port in the range. *)
Theorem CheckNodeAddress_outcomes (a : NodeAddr) :
  (CheckNodeAddress a = None <->
     1024 <= a.(Port) <= 65536 /\ a.(Host) <> "")
  /\ (CheckNodeAddress a = Some portError <->
        a.(Port) < 1024 \/ 65536 < a.(Port))
  /\ (CheckNodeAddress a = Some hostError <->
        1024 <= a.(Port) <= 65536 /\ a.(Host) = "").
Proof.
  destruct (Z.lt_ge_cases a.(Port) 1024) as [Hlow | Hge].
  { rewrite (AddressFacts.port_below_1024 a Hlow).
    repeat split; try discriminate; try lia; auto. }
  destruct (Z.lt_ge_cases 65536 a.(Port)) as [Hhigh | Hle].
  { rewrite (AddressFacts.port_above_65536 a Hhigh).
    repeat split; try discriminate; try lia; auto. }
  rewrite (AddressFacts.port_in_range a) by lia.
  destruct (String.eqb_spec a.(Host) "") as [Hempty | Hhost].
  - repeat split; try discriminate; try lia; try tauto.
  - repeat split; try discriminate; try lia; try tauto.
Qed.

(** Case analysis on the membership of an operation in a list of
    operations that is known. *)
Ltac event_cases :=
  repeat apply conj; try lia; unfold not; intros;
  repeat match goal with
         | H : _ /\ _ |- _ => destruct H
         | H : _ \/ _ |- _ => destruct H
         | H : exists _, _ |- _ => destruct H
         | H : False |- _ => destruct H
         | H : EvDial _ _ = EvDial _ _ |- _ => injection H as <- <-
         | H : EvWrite _ = EvWrite _ |- _ => injection H as <-
         | H : Ok _ = Ok _ |- _ => injection H as <-
         | H : _ = _ |- _ => discriminate H
         end;
  eauto.

Section Calls.

Variable NodeAddrToString : NodeAddr -> string.
Variable T : Type.
Variable gobDecodeString : list byte -> string * option error.
Variable gobDecode : list byte -> T -> T * option error.

Abbreviation send := (SendData NodeAddrToString).
Abbreviation waitFor :=
  (SendDataWaitResponse NodeAddrToString T gobDecodeString gobDecode).

(** X2.  [SendData] returns no error exactly when the address passes the
    check, the connection is established and the write succeeds. *)
Theorem SendData_nil_iff (net : Network) (a : NodeAddr) (data : list byte) :
  snd (send net a data) = None <->
  CheckNodeAddress a = None
  /\ exists conn,
       net (NodeAddrToString a) = Ok conn /\ conn.(copyResult) = None.
Proof.
  unfold SendData.
  destruct (CheckNodeAddress a) as [e |]; simpl.
  { split; [discriminate | intros [Hc _]; discriminate Hc]. }
  destruct (net (NodeAddrToString a)) as [conn | e]; simpl.
  - destruct (copyResult conn) as [e |] eqn:Hcopy; simpl.
    + split; [discriminate |].
      intros [_ (conn' & Heq & Hnone)]. injection Heq as <-. congruence.
    + split; [| reflexivity]. intros _. split; [reflexivity |].
      now exists conn.
  - split; [discriminate |]. intros [_ (conn & Heq & _)]. discriminate Heq.
Qed.



(** The socket operations of [SendDataWaitResponse]. *)
Lemma SendDataWaitResponse_events (net : Network) (a : NodeAddr)
    (data : list byte) (datapayload : option T) :
  fst (fst (waitFor net a data datapayload)) =
    match CheckNodeAddress a, net (NodeAddrToString a) with
    | Some _, _ => []
    | None, Err _ => [EvDial (NodeAddrToString a) 2]
    | None, Ok conn =>
        match conn.(copyResult) with
        | Some _ => [EvDial (NodeAddrToString a) 2; EvWrite data; EvClose]
        | None => waitEvents NodeAddrToString a data
        end
    end.
Proof.
  unfold SendDataWaitResponse.
  destruct (CheckNodeAddress a); [reflexivity |].
  destruct (net (NodeAddrToString a)) as [conn | e]; [| reflexivity].
  destruct (copyResult conn); [reflexivity |].
  destruct (readAllResult conn) as [response [e |]]; [reflexivity |].
  destruct response as [| status body]; [reflexivity |].
  destruct (negb _).
  - now destruct (gobDecodeString body) as [payload [e |]].
  - destruct datapayload as [v |]; [| reflexivity].
    now destruct (gobDecode body v) as [v' [e |]].
Qed.

(** X4.  [SendDataWaitResponse] closes the connection exactly when it has
    opened one, on every path; it reads exactly when the write has
    succeeded, and then after the write; it dials at most once, with a
    timeout of two seconds; and the only bytes it writes are the
    caller's. *)
Theorem SendDataWaitResponse_socket_discipline (net : Network)
    (a : NodeAddr) (data : list byte) (datapayload : option T) :
  let events := fst (fst (waitFor net a data datapayload)) in
  (In EvClose events <->
     CheckNodeAddress a = None
     /\ exists conn, net (NodeAddrToString a) = Ok conn)
  /\ (In EvReadAll events <->
        CheckNodeAddress a = None
        /\ exists conn,
             net (NodeAddrToString a) = Ok conn /\ conn.(copyResult) = None)
  /\ (forall d, In (EvWrite d) events -> d = data)
  /\ (forall address timeout,
         In (EvDial address timeout) events ->
         address = NodeAddrToString a /\ timeout = 2
         /\ CheckNodeAddress a = None)
  /\ (In EvReadAll events ->
        exists before, events = before ++ [EvReadAll; EvClose]
                       /\ In (EvWrite data) before).
Proof.
  cbv zeta. rewrite SendDataWaitResponse_events.
  destruct (CheckNodeAddress a) as [e |];
    [| destruct (net (NodeAddrToString a)) as [conn | e];
       [destruct (copyResult conn) as [e |] eqn:Hcopy |]];
    unfold waitEvents; simpl; event_cases; try congruence.
  exists [EvDial (NodeAddrToString a) 2; EvWrite data]. simpl. auto.
Qed.

(** X5.  [SendDataWaitResponse] returns no error exactly when the address
    passes the check, the connection is established, the write succeeds,
    the read ends without error on a response whose first byte is 1, and
    the rest of the response decodes into the destination (nothing is
    decoded when the destination is [nil]). *)
Theorem SendDataWaitResponse_nil_iff (net : Network) (a : NodeAddr)
    (data : list byte) (datapayload : option T) :
  snd (waitFor net a data datapayload) = None <->
  CheckNodeAddress a = None
  /\ exists conn body,
       net (NodeAddrToString a) = Ok conn
       /\ conn.(copyResult) = None
       /\ conn.(readAllResult) = (x01 :: body, None)
       /\ match datapayload with
          | Some v => snd (gobDecode body v) = None
          | None => True
          end.
Proof.
  split.
  - destruct (waitFor net a data datapayload) as [[events out] err] eqn:Hw.
    simpl. intros ->.
    pose proof Hw as Hinv.
    apply ResponseFacts.wait_success_inv in Hinv.
    destruct Hinv as (conn & status & body & Hdial & Hread & Hone).
    assert (Hstatus : status = x01).
    { apply (f_equal Z.to_N) in Hone. unfold Z_of_byte in Hone.
      rewrite N2Z.id in Hone. apply (f_equal Byte.of_N) in Hone.
      rewrite Byte.of_to_N in Hone. now injection Hone. }
    subst status. revert Hw. unfold SendDataWaitResponse.
    destruct (CheckNodeAddress a); [discriminate |].
    rewrite Hdial.
    destruct (copyResult conn) eqn:Hcopy; [discriminate |].
    rewrite Hread. simpl. intros Hw.
    split; [reflexivity |]. exists conn, body.
    repeat split; try assumption.
    destruct datapayload as [v |]; [| exact I].
    destruct (gobDecode body v) as [v' [e |]]; [discriminate | reflexivity].
  - intros (Hcheck & conn & body & Hdial & Hcopy & Hread & Hdec).
    rewrite (ResponseFacts.wait_response_read NodeAddrToString T
               gobDecodeString gobDecode net a data datapayload conn
               (x01 :: body) Hcheck Hdial Hcopy Hread).
    simpl. destruct datapayload as [v |]; [| reflexivity].
    destruct (gobDecode body v) as [v' [e |]]; [discriminate | reflexivity].
Qed.

(** X6.  A socket failure after the connection is established is reported in
    three ways: [SendData] wraps a write error as CanNotSend with the
    text of the error; [SendDataWaitResponse] returns a write error as it
    is; and it reports a read error as CanNotSend, whatever was read
    before the error. *)
Theorem socket_failures_reported (net : Network) (a : NodeAddr)
    (data : list byte) (datapayload : option T) (conn : Conn)
    (e : error) :
  CheckNodeAddress a = None ->
  net (NodeAddrToString a) = Ok conn ->
  (conn.(copyResult) = Some e ->
     snd (send net a data) = Some (CanNotSendError (Error e))
     /\ waitFor net a data datapayload
        = ([EvDial (NodeAddrToString a) 2; EvWrite data; EvClose],
           datapayload, Some e))
  /\ (forall response,
        conn.(copyResult) = None ->
        conn.(readAllResult) = (response, Some e) ->
        waitFor net a data datapayload
        = (waitEvents NodeAddrToString a data, datapayload,
           Some (CanNotSendError (Error e)))).
Proof.
  intros Hcheck Hdial. unfold SendData, SendDataWaitResponse.
  rewrite Hcheck, Hdial. split.
  - intros ->. auto.
  - intros response -> ->. reflexivity.
Qed.

(** X7.  A call that fails leaves the destination as it was, unless the
    failure is that of decoding the response; a [nil] destination stays
    [nil]. *)
Theorem SendDataWaitResponse_keeps_destination (net : Network)
    (a : NodeAddr) (data : list byte) (datapayload out : option T)
    (events : list NetEvent) (e : error) :
  waitFor net a data datapayload = (events, out, Some e) ->
  (datapayload = None -> out = None)
  /\ ((forall msg, e <> CanNotParseResponseError msg) -> out = datapayload).
Proof.
  unfold SendDataWaitResponse.
  destruct (CheckNodeAddress a); [intros H; injection H as <- <- <-; auto |].
  destruct (net (NodeAddrToString a)) as [conn | e'];
    [| intros H; injection H as <- <- <-; auto].
  destruct (copyResult conn); [intros H; injection H as <- <- <-; auto |].
  destruct (readAllResult conn) as [response [e' |]];
    [intros H; injection H as <- <- <-; auto |].
  destruct response as [| status body];
    [intros H; injection H as <- <- <-; auto |].
  destruct (negb _).
  - destruct (gobDecodeString body) as [payload [e' |]];
      intros H; injection H as <- <- <-; auto.
  - destruct datapayload as [v |]; [| discriminate].
    destruct (gobDecode body v) as [v' [e' |]]; [| discriminate].
    intros H. injection H as <- <- <-. split; [discriminate |].
    intros Hne. now destruct (Hne (Error e')).
Qed.

End Calls.

Lemma SendDataWaitResponse_keeps_destination_witness :
  (Some "held" = None -> Some "held" = @None string)
  /\ ((forall msg, noResponse <> CanNotParseResponseError msg) ->
      Some "held" = Some "held").
Proof.
  apply (SendDataWaitResponse_keeps_destination NodeAddrToString_spec
           string gob.gobString gob.gobStringInto (peer None [] None)
           local [] (Some "held") (Some "held")
           (waitEvents NodeAddrToString_spec local [])
           noResponse eq_refl).
Defined.

Lemma socket_failures_reported_witness :
  snd (SendData NodeAddrToString_spec
         (peer (Some (OpError "broken pipe")) [] None) local [x01])
  = Some (CanNotSendError "broken pipe")
  /\ SendDataWaitResponse NodeAddrToString_spec string gob.gobString
       gob.gobStringInto (peer (Some (OpError "broken pipe")) [] None)
       local [x01] (Some "held")
     = ([EvDial "localhost:8765" 2; EvWrite [x01]; EvClose],
        Some "held", Some (OpError "broken pipe")).
Proof.
  apply (proj1 (socket_failures_reported NodeAddrToString_spec string
                  gob.gobString gob.gobStringInto
                  (peer (Some (OpError "broken pipe")) [] None) local [x01]
                  (Some "held")
                  {| copyResult := Some (OpError "broken pipe");
                     readAllResult := ([], None) |}
                  (OpError "broken pipe") eq_refl eq_refl)).
  reflexivity.
Defined.

End ClientFacts.

(** ** Building a request *)
Module BuilderFacts.
Import nodeclient.

Section Builders.

Variable CommandToBytes : string -> list byte.
Variable D : Type.
Variable GobEncode : D -> result (list byte).

Abbreviation doBuild := (doBuildCommandData CommandToBytes D GobEncode).

(** What [doBuildCommandData] returns, by what the encoder returns. *)
Lemma doBuild_cases (command : string) (data : option D)
    (extra : list byte) :
  doBuild command data extra =
    match data with
    | None => Ok (frame CommandToBytes command [] extra)
    | Some d =>
        match GobEncode d with
        | Ok payload => Ok (frame CommandToBytes command payload extra)
        | Err e => Err e
        end
    end.
Proof.
  destruct data as [d |].
  - destruct (GobEncode d) as [payload | e] eqn:Henc.
    + now apply FramingFacts.build_payload.
    + now apply FramingFacts.build_encoder_error.
  - now apply FramingFacts.build_payload.
Qed.

(** X8.  Building a request fails exactly when there is data and the encoder
    fails on it, and then with the encoder's error; this holds with and
    without the authorization bytes.  Without data and without
    authorization the request is the identifier and eight zero bytes. *)
Theorem BuildCommandData_fails_iff (c : NodeClient) (command : string)
    (data : option D) :
  (forall e,
      BuildCommandData CommandToBytes D GobEncode command data = Err e <->
      exists d, data = Some d /\ GobEncode d = Err e)
  /\ (forall e,
         BuildCommandDataWithAuth CommandToBytes D GobEncode c command data
         = Err e <->
         exists d, data = Some d /\ GobEncode d = Err e)
  /\ BuildCommandData CommandToBytes D GobEncode command None
     = Ok (CommandToBytes command ++ repeat x00 8).
Proof.
  unfold BuildCommandData, BuildCommandDataWithAuth.
  rewrite !doBuild_cases.
  repeat apply conj; try reflexivity; intros e;
    (destruct data as [d |];
     [ destruct (GobEncode d) as [payload | e'] eqn:Henc
     | ]);
    (split;
     [ intros Heq; try discriminate Heq; injection Heq as <-;
       now exists d
     | intros (d' & Hd & He); try discriminate Hd;
       injection Hd as <-; congruence ]).
Qed.

(** X9.  The length of a request: the identifier, eight bytes of lengths, the
    payload and the extra bytes. *)
Theorem doBuildCommandData_length (command : string) (data : option D)
    (payload extra request : list byte) :
  payloadOf D GobEncode data payload ->
  doBuild command data extra = Ok request ->
  len request = len (CommandToBytes command) + 8 + len payload + len extra.
Proof.
  intros Hpayload.
  rewrite (FramingFacts.build_payload CommandToBytes D GobEncode command
             data payload extra Hpayload).
  intros Heq. injection Heq as <-.
  unfold len. rewrite !length_app. simpl List.length.
  rewrite length_app. lia.
Qed.

(** X10.  With the authorization bytes the request is the one without them,
    with the length of those bytes in the second length field and the
    bytes themselves at the end. *)
Theorem BuildCommandDataWithAuth_appends (c : NodeClient) (command : string)
    (data : option D) (payload : list byte) :
  payloadOf D GobEncode data payload ->
  let authbytes := CommandToBytes c.(NodeAuthStr) in
  let head := CommandToBytes command
                ++ binary.PutUint32 (uint32 (len payload)) in
  BuildCommandData CommandToBytes D GobEncode command data
  = Ok (head ++ binary.PutUint32 0 ++ payload)
  /\ BuildCommandDataWithAuth CommandToBytes D GobEncode c command data
     = Ok (head ++ binary.PutUint32 (uint32 (len authbytes))
             ++ payload ++ authbytes).
Proof.
  intros Hpayload authbytes head. subst authbytes head.
  unfold BuildCommandData, BuildCommandDataWithAuth.
  rewrite !(FramingFacts.build_payload CommandToBytes D GobEncode command
              data payload _ Hpayload).
  now rewrite app_nil_r, <- !app_assoc.
Qed.

End Builders.

Lemma doBuildCommandData_length_witness :
  len (list_byte_of_string "addr"
         ++ [x00; x00; x00; x00; x00; x00; x00; x00]
         ++ [x03; x00; x00; x00] ++ [x01; x00; x00; x00]
         ++ [x01; x02; x03] ++ [x61])
  = len (CommandToBytes_spec 12 "addr") + 8 + len [x01; x02; x03]
    + len [x61].
Proof.
  apply (doBuildCommandData_length (CommandToBytes_spec 12) (list byte)
           rawBytes "addr" (Some [x01; x02; x03]) [x01; x02; x03] [x61]);
    reflexivity.
Defined.

Lemma BuildCommandDataWithAuth_appends_witness :
  BuildCommandDataWithAuth (CommandToBytes_spec 12) (list byte) rawBytes
    (client local "secret") "addnode" (Some [x01])
  = Ok ((CommandToBytes_spec 12 "addnode" ++ [x01; x00; x00; x00])
          ++ [x0c; x00; x00; x00] ++ [x01]
          ++ CommandToBytes_spec 12 "secret").
Proof.
  apply (proj2 (BuildCommandDataWithAuth_appends (CommandToBytes_spec 12)
                  (list byte) rawBytes (client local "secret") "addnode"
                  (Some [x01]) [x01] eq_refl)).
Defined.

End BuilderFacts.

(** ** The commands *)
Module CommandFacts.
Import nodeclient.

Section Senders.

Variable NodeAddrToString : NodeAddr -> string.
Variable CommandToBytes : string -> list byte.
Variable NodeVersion : Z.
Variable NodeAddrShort : Type.

Context {gobString : Gob string}.
Context {gobBytes : Gob (list byte)}.
Context {gobNodeAddrs : Gob (list NodeAddr)}.
Context {gobComAddresses : Gob ComAddresses}.
Context {gobComBlock : Gob ComBlock}.
Context {gobComGetBlocks : Gob ComGetBlocks}.
Context {gobComGetFirstBlocksData : Gob ComGetFirstBlocksData}.
Context {gobComGetConsensusData : Gob ComGetConsensusData}.
Context {gobComGetData : Gob ComGetData}.
Context {gobComWalletBalance : Gob ComWalletBalance}.
Context {gobComGetWalletBalance : Gob ComGetWalletBalance}.
Context {gobComNewTransactionData : Gob ComNewTransactionData}.
Context {gobComRequestTransaction : Gob ComRequestTransaction}.
Context {gobComRequestSQLTransaction : Gob ComRequestSQLTransaction}.
Context {gobComRequestTransactionData : Gob ComRequestTransactionData}.
Context {gobComGetUnspentTransactions : Gob ComGetUnspentTransactions}.
Context {gobComUnspentTransactions : Gob ComUnspentTransactions}.
Context {gobComGetHistoryTransactions : Gob ComGetHistoryTransactions}.
Context {gobComHistoryTransactions : Gob (list ComHistoryTransaction)}.
Context {gobComInv : Gob ComInv}.
Context {gobComTx : Gob ComTx}.
Context {gobComVersion : Gob ComVersion}.
Context {gobComManageNode : Gob ComManageNode}.
Context {gobComGetNodeState : Gob ComGetNodeState}.
Context {gobComGetUpdates : Gob ComGetUpdates}.
Context {gobResponseGetUpdates : Gob (ResponseGetUpdates NodeAddrShort)}.
Context {gobComGetTransaction : Gob ComGetTransaction}.
Context {gobResponseGetTransaction : Gob ResponseGetTransaction}.
Context {gobComCheckBlock : Gob ComCheckBlock}.
Context {gobResponseCheckBlock : Gob ResponseCheckBlock}.
Context {gobComGetBlock : Gob ComGetBlock}.
Context {gobResponseGetBlock : Gob ResponseGetBlock}.

Abbreviation framed := (frame CommandToBytes).
Abbreviation sent := (SendData NodeAddrToString).
Abbreviation waited := (waitResponse NodeAddrToString).

(** *** The requests the senders build *)

Lemma buildCommand_cases {D : Type} `{Gob D} (command : string) (data : D) :
  buildCommand CommandToBytes command data =
    match encodeGob data with
    | Ok payload => Ok (framed command payload [])
    | Err e => Err e
    end.
Proof.
  unfold buildCommand, BuildCommandData.
  now rewrite BuilderFacts.doBuild_cases.
Qed.

Lemma buildCommandNil_ok (command : string) :
  buildCommandNil CommandToBytes command = Ok (framed command [] []).
Proof.
  unfold buildCommandNil, BuildCommandData.
  now rewrite BuilderFacts.doBuild_cases.
Qed.

Lemma buildCommandWithAuth_cases {D : Type} `{Gob D} (c : NodeClient)
    (command : string) (data : D) :
  buildCommandWithAuth CommandToBytes c command data =
    match encodeGob data with
    | Ok payload =>
        Ok (framed command payload (CommandToBytes c.(NodeAuthStr)))
    | Err e => Err e
    end.
Proof.
  unfold buildCommandWithAuth, BuildCommandDataWithAuth.
  now rewrite BuilderFacts.doBuild_cases.
Qed.

Lemma buildCommandWithAuthNil_ok (c : NodeClient) (command : string) :
  buildCommandWithAuthNil CommandToBytes c command
  = Ok (framed command [] (CommandToBytes c.(NodeAuthStr))).
Proof.
  unfold buildCommandWithAuthNil, BuildCommandDataWithAuth.
  now rewrite BuilderFacts.doBuild_cases.
Qed.

(** The call on a peer that answers with status 1. *)
Lemma waited_answers {T : Type} `{Gob T} (net : Network) (addr : NodeAddr)
    (conn : Conn) (body request : list byte) (v v' : T) :
  answers NodeAddrToString net addr conn body ->
  decodeGob body v = (v', None) ->
  waited net addr request (Some v)
  = (waitEvents NodeAddrToString addr request, Some v', None).
Proof.
  intros (Hcheck & Hdial & Hcopy & Hread) Hdec. unfold waitResponse.
  rewrite (ResponseFacts.wait_response_read _ _ _ _ net addr request
             (Some v) conn (x01 :: body) Hcheck Hdial Hcopy Hread).
  simpl. now rewrite Hdec.
Qed.

Ltac sender :=
  unfold SendAddrList, SendBlock, SendInv, SendGetBlocks, SendGetBlocksUpper,
    SendGetData, SendTx, SendVersion, SendGetBlock, SendGetFirstBlocks,
    SendGetConsensusData, SendGetTransaction, SendCheckBlock, SendGetUpdates,
    SendGetHistory, SendNewTransactionData,
    SendRequestNewCurrencyTransaction, SendRequestNewSQLTransaction,
    SendGetUnspent, SendGetBalance, SendGetNodes, SendAddNode,
    SendRemoveNode, SendGetState, sendData;
  rewrite ?buildCommand_cases, ?buildCommandNil_ok,
    ?buildCommandWithAuth_cases, ?buildCommandWithAuthNil_ok.

(** X11.  Each of the eight senders that wait for no answer encodes a struct
    that holds the client's own address, and then either returns the
    encoder's error without touching a socket, or is [SendData] on one
    request: the identifier of its command, the payload, no extra
    bytes. *)
Theorem senders_without_answer (c : NodeClient) (net : Network)
    (addr : NodeAddr) :
  let run (command : string) (encoded : result (list byte)) :=
    match encoded with
    | Err e => ([], Some e)
    | Ok payload => sent net addr (framed command payload [])
    end in
  (forall addresses,
      SendAddrList NodeAddrToString CommandToBytes c net addr addresses
      = run "addr"
          (encodeGob {| ComAddresses_AddrFrom := c.(NodeAddress);
                        ComAddresses_Addresses := addresses |}))
  /\ (forall block,
         SendBlock NodeAddrToString CommandToBytes c net addr block
         = run "block"
             (encodeGob {| ComBlock_AddrFrom := c.(NodeAddress);
                           ComBlock_Block := block |}))
  /\ (forall kind items,
         SendInv NodeAddrToString CommandToBytes c net addr kind items
         = run "inv"
             (encodeGob {| ComInv_AddrFrom := c.(NodeAddress);
                           ComInv_Type := kind; ComInv_Items := items |}))
  /\ (forall startfrom,
         SendGetBlocks NodeAddrToString CommandToBytes c net addr startfrom
         = run "getblocks"
             (encodeGob {| ComGetBlocks_AddrFrom := c.(NodeAddress);
                           ComGetBlocks_StartFrom := startfrom |}))
  /\ (forall startfrom,
         SendGetBlocksUpper NodeAddrToString CommandToBytes c net addr
           startfrom
         = run "getblocksup"
             (encodeGob {| ComGetBlocks_AddrFrom := c.(NodeAddress);
                           ComGetBlocks_StartFrom := startfrom |}))
  /\ (forall kind id,
         SendGetData NodeAddrToString CommandToBytes c net addr kind id
         = run "getdata"
             (encodeGob {| ComGetData_AddrFrom := c.(NodeAddress);
                           ComGetData_Type := kind; ComGetData_ID := id |}))
  /\ (forall tx,
         SendTx NodeAddrToString CommandToBytes c net addr tx
         = run "tx"
             (encodeGob {| ComTx_AddFrom := c.(NodeAddress);
                           ComTx_Transaction := tx |}))
  /\ (forall bestHeight,
         SendVersion NodeAddrToString CommandToBytes NodeVersion c net addr
           bestHeight
         = run "version"
             (encodeGob {| ComVersion_Version := NodeVersion;
                           ComVersion_BestHeight := bestHeight;
                           ComVersion_AddrFrom := c.(NodeAddress) |})).
Proof.
  cbv zeta. repeat apply conj; intros; sender;
    match goal with
    | |- context [encodeGob ?d] => now destruct (encodeGob d)
    end.
Qed.

(** X12.  Each of the six senders that return a pointer returns [nil] exactly
    when it returns an error. *)
Theorem senders_nil_pointer_iff_error (c : NodeClient) (net : Network)
    (addr : NodeAddr) :
  let nilIffError {T : Type} (r : list NetEvent * option T * option error) :=
    snd (fst r) = None <-> snd r <> None in
  (forall blockHash,
      nilIffError
        (SendGetBlock NodeAddrToString CommandToBytes c net addr blockHash))
  /\ nilIffError (SendGetFirstBlocks NodeAddrToString CommandToBytes c net addr)
  /\ nilIffError
       (SendGetConsensusData NodeAddrToString CommandToBytes c net addr)
  /\ (forall txID,
         nilIffError
           (SendGetTransaction NodeAddrToString CommandToBytes c net addr
              txID))
  /\ (forall hash,
         nilIffError
           (SendCheckBlock NodeAddrToString CommandToBytes c net addr hash))
  /\ (forall lastCheckTime blockHeight topBlocks,
         nilIffError
           (SendGetUpdates NodeAddrToString CommandToBytes NodeAddrShort c net
              addr lastCheckTime blockHeight topBlocks)).
Proof.
  cbv beta zeta. repeat match goal with |- _ /\ _ => split end;
    intros; sender;
    try match goal with
        | |- context [encodeGob ?d] =>
            destruct (encodeGob d); [| simpl; split; congruence]
        end;
    match goal with
    | |- context [waited ?n ?a ?r ?d] =>
        destruct (waited n a r d) as [[events dest] [e |]]
    end; simpl; split; congruence.
Qed.

(** X13.  The senders that return values return empty ones with an error: an
    empty list, a [false] flag, a struct with every field zero. *)
Theorem senders_no_value_with_error (c : NodeClient) (net : Network)
    (addr : NodeAddr) :
  (forall address events value e,
      SendGetHistory NodeAddrToString CommandToBytes c net addr address
      = (events, value, Some e) -> value = [])
  /\ (forall from txBytes signature events value e,
         SendNewTransactionData NodeAddrToString CommandToBytes c net addr
           from txBytes signature
         = (events, value, Some e) -> value = [])
  /\ (forall pubKey to amount events tx toSign e,
         SendRequestNewCurrencyTransaction NodeAddrToString CommandToBytes c
           net addr pubKey to amount
         = (events, tx, toSign, Some e) -> tx = [] /\ toSign = [])
  /\ (forall pubKey sqlcommand events finished tx toSign e,
         SendRequestNewSQLTransaction NodeAddrToString CommandToBytes c net
           addr pubKey sqlcommand
         = (events, finished, tx, toSign, Some e) ->
         finished = false /\ tx = [] /\ toSign = [])
  /\ (forall address chaintip events value e,
         SendGetUnspent NodeAddrToString CommandToBytes c net addr address
           chaintip
         = (events, value, Some e) -> value = zeroUnspentTransactions)
  /\ (forall address events value e,
         SendGetBalance NodeAddrToString CommandToBytes c net addr address
         = (events, value, Some e) -> value = zeroWalletBalance)
  /\ (forall events value e,
         SendGetNodes NodeAddrToString CommandToBytes c net
         = (events, value, Some e) -> value = []).
Proof.
  repeat apply conj; intros until e; sender;
    try match goal with
        | |- context [encodeGob ?d] => destruct (encodeGob d); simpl
        end;
    try match goal with
        | |- context [waited ?n ?a ?r ?d] =>
            destruct (waited n a r d) as [[events' dest] [e' |]]
        end;
    intros Heq; inversion Heq; subst; auto.
Qed.

(** X18.  [SendGetState] is the exception: what the destination holds comes back
    with the error.  When the response does not decode, the state the
    decoder left is returned together with the wrapped error, where
    [SendGetBalance] returns the zero balance. *)
Theorem SendGetState_returns_data_with_error (c : NodeClient)
    (net : Network) (conn : Conn) (body : list byte) (e : error) :
  answers NodeAddrToString net c.(NodeAddress) conn body ->
  (forall state,
      decodeGob body zeroNodeState = (state, Some e) ->
      SendGetState NodeAddrToString CommandToBytes c net
      = (waitEvents NodeAddrToString c.(NodeAddress)
           (framed "getstate" [] (CommandToBytes c.(NodeAuthStr))),
         state,
         Some (errorString
                 ("gettig state error: " ++ Error e)%string)))
  /\ (forall address balance,
         decodeGob body zeroWalletBalance = (balance, Some e) ->
         snd (fst (SendGetBalance NodeAddrToString CommandToBytes c net
                     c.(NodeAddress) address))
         = zeroWalletBalance).
Proof.
  intros (Hcheck & Hdial & Hcopy & Hread). split.
  - intros state Hdec. sender. unfold requestOf, waitResponse.
    rewrite (ResponseFacts.wait_response_read _ _ _ _ net c.(NodeAddress) _
               (Some zeroNodeState) conn (x01 :: body) Hcheck Hdial Hcopy Hread).
    simpl. now rewrite Hdec.
  - intros address balance Hdec. sender. unfold waitResponse.
    rewrite (ResponseFacts.wait_response_read _ _ _ _ net c.(NodeAddress) _
               (Some zeroWalletBalance) conn (x01 :: body) Hcheck Hdial Hcopy
               Hread).
    simpl. now rewrite Hdec.
Qed.

(** X14.  When the peer answers with status 1 and a body that decodes, each
    sender that waits for an answer has written one request (the
    identifier of its command, the encoded struct, no extra bytes), and
    returns what the body decodes to, starting from the zero value of the
    result type. *)
Theorem senders_with_answer (c : NodeClient) (net : Network)
    (addr : NodeAddr) (conn : Conn) (body : list byte) :
  answers NodeAddrToString net addr conn body ->
  let events command payload :=
    waitEvents NodeAddrToString addr (framed command payload []) in
  (forall blockHash payload v,
      encodeGob {| ComGetBlock_BlockHash := blockHash;
                   ComGetBlock_AddrFrom := c.(NodeAddress) |} = Ok payload ->
      decodeGob body {| ResponseGetBlock_Block := [] |} = (v, None) ->
      SendGetBlock NodeAddrToString CommandToBytes c net addr blockHash
      = (events "getblock" payload, Some v, None))
  /\ (forall v,
         decodeGob body {| ComGetFirstBlocksData_Blocks := [];
                           ComGetFirstBlocksData_Height := 0 |} = (v, None) ->
         SendGetFirstBlocks NodeAddrToString CommandToBytes c net addr
         = (events "getfblocks" [], Some v, None))
  /\ (forall v,
         decodeGob body {| ComGetConsensusData_ConfigFile := [];
                           ComGetConsensusData_Module := [] |} = (v, None) ->
         SendGetConsensusData NodeAddrToString CommandToBytes c net addr
         = (events "getcnsdata" [], Some v, None))
  /\ (forall txID payload v,
         encodeGob {| ComGetTransaction_TransactionID := txID;
                      ComGetTransaction_AddrFrom := c.(NodeAddress) |}
         = Ok payload ->
         decodeGob body {| ResponseGetTransaction_Transaction := [] |}
         = (v, None) ->
         SendGetTransaction NodeAddrToString CommandToBytes c net addr txID
         = (events "gettransact" payload, Some v, None))
  /\ (forall hash payload v,
         encodeGob {| ComCheckBlock_BlockHash := hash;
                      ComCheckBlock_AddrFrom := c.(NodeAddress) |}
         = Ok payload ->
         decodeGob body {| ResponseCheckBlock_Exists := false |} = (v, None) ->
         SendCheckBlock NodeAddrToString CommandToBytes c net addr hash
         = (events "checkblock" payload, Some v, None))
  /\ (forall lastCheckTime blockHeight topBlocks payload v,
         encodeGob {| ComGetUpdates_LastCheckTime := lastCheckTime;
                      ComGetUpdates_CurrentBlockHeight := blockHeight;
                      ComGetUpdates_TopBlocks := topBlocks;
                      ComGetUpdates_AddrFrom := c.(NodeAddress) |}
         = Ok payload ->
         decodeGob body
           {| ResponseGetUpdates_CurrentBlockHeight := 0;
              ResponseGetUpdates_CountTransactionsInPool := 0;
              ResponseGetUpdates_Blocks := [];
              ResponseGetUpdates_TransactionsInPool := [];
              ResponseGetUpdates_Nodes := @nil NodeAddrShort |} = (v, None) ->
         SendGetUpdates NodeAddrToString CommandToBytes NodeAddrShort c net
           addr lastCheckTime blockHeight topBlocks
         = (events "getupdates" payload, Some v, None))
  /\ (forall address payload v,
         encodeGob {| ComGetHistoryTransactions_Address := address |}
         = Ok payload ->
         decodeGob body (@nil ComHistoryTransaction) = (v, None) ->
         SendGetHistory NodeAddrToString CommandToBytes c net addr address
         = (events "gethistory" payload, v, None))
  /\ (forall from txBytes signature payload v,
         encodeGob {| ComNewTransactionData_Address := from;
                      ComNewTransactionData_TX := txBytes;
                      ComNewTransactionData_Signature := signature |}
         = Ok payload ->
         decodeGob body (@nil byte) = (v, None) ->
         SendNewTransactionData NodeAddrToString CommandToBytes c net addr
           from txBytes signature
         = (events "txdata" payload, v, None))
  /\ (forall pubKey to amount payload v,
         encodeGob {| ComRequestTransaction_PubKey := pubKey;
                      ComRequestTransaction_To := to;
                      ComRequestTransaction_Amount := amount |} = Ok payload ->
         decodeGob body zeroRequestTransactionData = (v, None) ->
         SendRequestNewCurrencyTransaction NodeAddrToString CommandToBytes c
           net addr pubKey to amount
         = (events "txcurrequest" payload,
            v.(ComRequestTransactionData_TX),
            v.(ComRequestTransactionData_DataToSign), None))
  /\ (forall pubKey sqlcommand payload v,
         encodeGob {| ComRequestSQLTransaction_PubKey := pubKey;
                      ComRequestSQLTransaction_SQL := sqlcommand |}
         = Ok payload ->
         decodeGob body zeroRequestTransactionData = (v, None) ->
         SendRequestNewSQLTransaction NodeAddrToString CommandToBytes c net
           addr pubKey sqlcommand
         = (events "txsqlrequest" payload,
            v.(ComRequestTransactionData_Finished),
            v.(ComRequestTransactionData_TX),
            v.(ComRequestTransactionData_DataToSign), None))
  /\ (forall address chaintip payload v,
         encodeGob {| ComGetUnspentTransactions_Address := address;
                      ComGetUnspentTransactions_LastBlock := chaintip |}
         = Ok payload ->
         decodeGob body zeroUnspentTransactions = (v, None) ->
         SendGetUnspent NodeAddrToString CommandToBytes c net addr address
           chaintip
         = (events "getunspent" payload, v, None))
  /\ (forall address payload v,
         encodeGob {| ComGetWalletBalance_Address := address |} = Ok payload ->
         decodeGob body zeroWalletBalance = (v, None) ->
         SendGetBalance NodeAddrToString CommandToBytes c net addr address
         = (events "getbalance" payload, v, None)).
Proof.
  intros Hanswers. cbv beta zeta.
  repeat match goal with |- _ /\ _ => split end; intros; sender;
    repeat match goal with
           | H : encodeGob _ = Ok _ |- _ => rewrite H; clear H
           end;
    unfold requestOf;
    match goal with
    | Hdec : decodeGob body ?z = (?v, None) |- _ =>
        rewrite (waited_answers net addr conn body _ z v Hanswers Hdec)
    end; reflexivity.
Qed.

(** What [waitResponse] writes once it is connected. *)
Lemma waited_writes {T : Type} `{Gob T} (net : Network) (a : NodeAddr)
    (conn : Conn) (request : list byte) (dest : option T) :
  CheckNodeAddress a = None ->
  net (NodeAddrToString a) = Ok conn ->
  In (EvWrite request) (fst (fst (waited net a request dest))).
Proof.
  intros Hcheck Hdial. unfold waitResponse.
  rewrite ClientFacts.SendDataWaitResponse_events, Hcheck, Hdial.
  destruct (copyResult conn); simpl; auto.
Qed.


(** X15.  Four senders do not look at the error of the build.  When the encoder
    fails on their struct and the peer can be reached, they open the
    connection all the same and write an empty request; the senders of
    [senders_without_answer] touch no socket in that case. *)
Theorem senders_that_ignore_the_encoder (c : NodeClient) (net : Network)
    (addr : NodeAddr) (conn : Conn) (e : error) :
  (forall address chaintip,
      encodeGob {| ComGetUnspentTransactions_Address := address;
                   ComGetUnspentTransactions_LastBlock := chaintip |}
      = Err e ->
      CheckNodeAddress addr = None -> net (NodeAddrToString addr) = Ok conn ->
      In (EvWrite [])
        (fst (fst (SendGetUnspent NodeAddrToString CommandToBytes c net addr
                     address chaintip))))
  /\ (forall address,
         encodeGob {| ComGetWalletBalance_Address := address |} = Err e ->
         CheckNodeAddress addr = None ->
         net (NodeAddrToString addr) = Ok conn ->
         In (EvWrite [])
           (fst (fst (SendGetBalance NodeAddrToString CommandToBytes c net
                        addr address))))
  /\ (forall node,
         encodeGob {| ComManageNode_Node := node |} = Err e ->
         CheckNodeAddress c.(NodeAddress) = None ->
         net (NodeAddrToString c.(NodeAddress)) = Ok conn ->
         In (EvWrite [])
           (fst (SendAddNode NodeAddrToString CommandToBytes c net node))
         /\ In (EvWrite [])
              (fst (SendRemoveNode NodeAddrToString CommandToBytes c net
                      node)))
  /\ (forall block,
         encodeGob {| ComBlock_AddrFrom := c.(NodeAddress);
                      ComBlock_Block := block |} = Err e ->
         SendBlock NodeAddrToString CommandToBytes c net addr block
         = ([], Some e)).
Proof.
  repeat match goal with |- _ /\ _ => split end; intros;
    try match goal with |- _ /\ _ => split end; sender;
    repeat match goal with
           | H : encodeGob _ = Err _ |- _ => rewrite H; clear H
           end;
    unfold requestOf; try reflexivity;
    match goal with
    | |- context [@waitResponse _ _ ?T ?G ?n ?a ?r ?d] =>
        pose proof (@waited_writes T G n a conn r d ltac:(assumption)
                      ltac:(assumption)) as Hin;
        destruct (@waitResponse NodeAddrToString _ T G n a r d)
          as [[events dest] [e' |]]
    end; exact Hin.
Qed.


(** X17.  After [SetNodeAddress] and [SetAuthStr], the management requests go
    to the address set and carry the identifier of the authorization
    string set as their extra bytes: [addnode] and [removenode] after the
    encoded node, [getstate] with an empty payload.  [getnodes] carries
    neither payload nor extra bytes. *)
Theorem management_requests (c : NodeClient) (net : Network) (conn : Conn)
    (own : NodeAddr) (auth : string) :
  let c' := SetAuthStr (SetNodeAddress c own) auth in
  CheckNodeAddress own = None ->
  net (NodeAddrToString own) = Ok conn ->
  (forall node payload,
      encodeGob {| ComManageNode_Node := node |} = Ok payload ->
      In (EvWrite (framed "addnode" payload (CommandToBytes auth)))
        (fst (SendAddNode NodeAddrToString CommandToBytes c' net node))
      /\ In (EvWrite (framed "removenode" payload (CommandToBytes auth)))
           (fst (SendRemoveNode NodeAddrToString CommandToBytes c' net node)))
  /\ In (EvWrite (framed "getstate" [] (CommandToBytes auth)))
       (fst (fst (SendGetState NodeAddrToString CommandToBytes c' net)))
  /\ In (EvWrite (framed "getnodes" [] []))
       (fst (fst (SendGetNodes NodeAddrToString CommandToBytes c' net))).
Proof.
  intros c' Hcheck Hdial. subst c'.
  repeat match goal with |- _ /\ _ => split end; intros;
    try match goal with |- _ /\ _ => split end; sender;
    repeat match goal with
           | H : encodeGob _ = Ok _ |- _ => rewrite H; clear H
           end;
    unfold requestOf; simpl NodeAddress; simpl NodeAuthStr;
    match goal with
    | |- context [@waitResponse _ _ ?T ?G ?n ?a ?r ?d] =>
        pose proof (@waited_writes T G n a conn r d Hcheck Hdial) as Hin;
        destruct (@waitResponse NodeAddrToString _ T G n a r d)
          as [[events dest] [e' |]]
    end; exact Hin.
Qed.

End Senders.

Section Witnesses.

#[local] Existing Instance gobKeep.

Lemma senders_with_answer_witness :
  SendCheckBlock NodeAddrToString_spec (CommandToBytes_spec 12)
    own (peer None [x01; x00] None) local [xab]
  = ([EvDial "localhost:8765" 2;
      EvWrite (CommandToBytes_spec 12 "checkblock"
                 ++ [x01; x00; x00; x00; x00; x00; x00; x00; x2a]);
      EvReadAll; EvClose],
     Some {| ResponseCheckBlock_Exists := false |}, None).
Proof.
  refine (proj1 (proj2 (proj2 (proj2 (proj2
            (senders_with_answer NodeAddrToString_spec
               (CommandToBytes_spec 12) unit
               own (peer None [x01; x00] None) local
               {| copyResult := None; readAllResult := ([x01; x00], None) |}
               [x00] _))))) [xab] [x2a] _ eq_refl eq_refl).
  repeat split.
Defined.

Lemma management_requests_witness :
  In (EvWrite (CommandToBytes_spec 12 "getstate"
                 ++ [x00; x00; x00; x00; x0c; x00; x00; x00]
                 ++ CommandToBytes_spec 12 "secret"))
    (fst (fst (SendGetState NodeAddrToString_spec (CommandToBytes_spec 12)
                 (SetAuthStr (SetNodeAddress own local) "secret")
                 (peer None [] None)))).
Proof.
  exact (proj1 (proj2
           (management_requests NodeAddrToString_spec
              (CommandToBytes_spec 12) own (peer None [] None)
              {| copyResult := None; readAllResult := ([], None) |}
              local "secret" eq_refl eq_refl))).
Defined.

End Witnesses.

Lemma SendGetState_returns_data_with_error_witness :
  SendGetState NodeAddrToString_spec (CommandToBytes_spec 12)
    (gobString := gobFail string)
    (gobComGetNodeState := gobFail ComGetNodeState)
    own (peer None [x01; x00] None)
  = (waitEvents NodeAddrToString_spec local
       (frame (CommandToBytes_spec 12) "getstate" []
          (CommandToBytes_spec 12 "secret")),
     zeroNodeState,
     Some (errorString "gettig state error: gob: type mismatch")).
Proof.
  refine (proj1 (SendGetState_returns_data_with_error NodeAddrToString_spec
                   (CommandToBytes_spec 12)
                   (gobString := gobFail string)
                   (gobComWalletBalance := gobFail ComWalletBalance)
                   (gobComGetWalletBalance := gobFail ComGetWalletBalance)
                   (gobComGetNodeState := gobFail ComGetNodeState)
                   own (peer None [x01; x00] None)
                   {| copyResult := None;
                      readAllResult := ([x01; x00], None) |}
                   [x00] (OpError "gob: type mismatch") _)
            zeroNodeState eq_refl).
  repeat split.
Defined.

End CommandFacts.

(** ** The parsed query, further *)
Module ParsedFacts.
Import dbquery.

(** *** The reference of a row *)

Lemma colon_occurs_at_head (s : string) : occurs ":" (String ":" s).
Proof. now exists EmptyString, s. Qed.

Lemma occurs_tail (p : string) (c : ascii) (s : string) :
  occurs p s -> occurs p (String c s).
Proof.
  intros (before & after & ->). now exists (String c before), after.
Qed.

(** Two names without a colon, each followed by a colon and a value:
    equal texts have equal names and equal values. *)
Lemma colon_splits_once (t1 t2 k1 k2 : string) :
  ~ occurs ":" t1 -> ~ occurs ":" t2 ->
  (t1 ++ ":" ++ k1 = t2 ++ ":" ++ k2)%string ->
  t1 = t2 /\ k1 = k2.
Proof.
  revert t2. induction t1 as [| c t1 IH]; intros [| d t2] H1 H2 Heq;
    simpl in Heq.
  - injection Heq as ->. auto.
  - injection Heq as <- _. destruct H2. apply colon_occurs_at_head.
  - injection Heq as -> _. destruct H1. apply colon_occurs_at_head.
  - injection Heq as -> Heq.
    destruct (IH t2) as [-> ->]; auto;
      intros Hocc; [apply H1 | apply H2]; now apply occurs_tail.
Qed.

Section Parsed.

Context {P : Type} `{SQLQueryParserInterface P}.

(** X19.  When no table name holds a colon, the reference identifies the row:
    two queries with the same reference have the same table and the same
    key value. *)
Theorem ReferenceID_identifies_row (qp1 qp2 : QueryParsed) :
  ~ occurs ":" (GetTable qp1.(Structure)) ->
  ~ occurs ":" (GetTable qp2.(Structure)) ->
  ReferenceID qp1 = ReferenceID qp2 ->
  GetTable qp1.(Structure) = GetTable qp2.(Structure)
  /\ qp1.(KeyVal) = qp2.(KeyVal).
Proof.
  unfold ReferenceID. apply colon_splits_once.
Qed.

(** *** Rollback *)

Variable Quote : string -> string.

(** X20.  A rollback statement is produced exactly for the kinds Create and
    Insert, whatever the quoting; a query with a rollback statement is an
    update, and a Select has none. *)
Theorem buildRollbackSQL_nonempty_iff (qp : QueryParsed) :
  (fst (buildRollbackSQL Quote qp) <> "" <->
     kindOf qp = lib.QueryKindCreate \/ kindOf qp = lib.QueryKindInsert)
  /\ (fst (buildRollbackSQL Quote qp) <> "" -> IsUpdate qp = true)
  /\ (IsSelect qp = true -> fst (buildRollbackSQL Quote qp) = "").
Proof.
  assert (Hiff : fst (buildRollbackSQL Quote qp) <> "" <->
                 kindOf qp = lib.QueryKindCreate
                 \/ kindOf qp = lib.QueryKindInsert).
  { split.
    - intros Hne.
      destruct (String.eqb_spec (kindOf qp) lib.QueryKindCreate) as [| Hc];
        [now left |].
      destruct (String.eqb_spec (kindOf qp) lib.QueryKindInsert) as [| Hi];
        [now right |].
      now rewrite (QueryFacts.buildRollbackSQL_other Quote qp Hc Hi) in Hne.
    - intros [Hk | Hk].
      + now rewrite (QueryFacts.buildRollbackSQL_create Quote qp Hk).
      + now rewrite (QueryFacts.buildRollbackSQL_insert Quote qp Hk). }
  split; [exact Hiff |]. split.
  - intros Hne. apply Hiff in Hne. apply QueryFacts.IsUpdate_iff.
    unfold updateKind. tauto.
  - intros Hsel. apply QueryFacts.IsSelect_iff in Hsel.
    destruct (string_dec (fst (buildRollbackSQL Quote qp)) "") as [| Hne];
      [assumption |].
    apply Hiff in Hne. rewrite Hsel in Hne.
    destruct Hne as [Hk | Hk]; discriminate Hk.
Qed.

(** *** The envelope *)

(** X21.  Only the first comment is read, and nothing else of the query. *)
Theorem parseInfoFromComments_first_comment_only (qp1 qp2 : QueryParsed) :
  hd_error (GetComments qp1.(Structure))
  = hd_error (GetComments qp2.(Structure)) ->
  parseInfoFromComments qp1 = parseInfoFromComments qp2.
Proof.
  unfold parseInfoFromComments.
  destruct (GetComments qp1.(Structure)) as [| c1 r1];
    destruct (GetComments qp2.(Structure)) as [| c2 r2]; simpl;
    intros Heq; try discriminate Heq; [reflexivity |].
  now injection Heq as ->.
Qed.

(** A block fails exactly when its expression has two matches. *)
Lemma decodeMarker_error_iff (marker comment : string) (field : list byte) :
  marker = "SIGN:" \/ marker = "DATA:" \/ marker = "PUBKEY:" ->
  (matchedTwice marker comment ->
     exists bytes pos,
       decodeMarker marker comment field
       = (bytes, Some (CorruptInputError pos)))
  /\ (~ matchedTwice marker comment ->
        decodeMarker marker comment field = (field, None)).
Proof.
  intros Hmarker. unfold matchedTwice. split.
  - intros Htwo.
    destruct (EnvelopeFacts.decodeMarker_cases marker comment field Hmarker)
      as [Hsame | Hfail]; [| exact Hfail].
    exfalso. revert Hsame. unfold decodeMarker.
    apply Nat.eqb_eq in Htwo. rewrite Htwo.
    set (s := regexp.FindAllString _ comment) in *.
    apply Nat.eqb_eq in Htwo.
    assert (Hin : In (nth 1 s "") s) by (apply nth_In; lia).
    apply EnvelopeFacts.FindAllString_shape in Hin.
    destruct Hin as [value ->]. simpl regexp.marker.
    destruct Hmarker as [-> | [-> | ->]];
      [rewrite EnvelopeFacts.DecodeString_SIGN
      | rewrite EnvelopeFacts.DecodeString_DATA
      | rewrite EnvelopeFacts.DecodeString_PUBKEY]; discriminate.
  - intros Hnot. unfold decodeMarker.
    destruct (Nat.eqb_spec
                (List.length
                   (regexp.FindAllString {| regexp.marker := marker |}
                      comment)) 2) as [Htwo | _];
      [contradiction | reflexivity].
Qed.

(** X22.  The call returns an error exactly when there is a first comment in
    which the expression of one of the three markers has exactly two
    matches; the error is then a base64 error. *)
Theorem parseInfoFromComments_error_iff (qp : QueryParsed) :
  (snd (parseInfoFromComments qp) <> None <->
     exists comment rest,
       GetComments qp.(Structure) = comment :: rest
       /\ (matchedTwice "SIGN:" comment \/ matchedTwice "DATA:" comment
           \/ matchedTwice "PUBKEY:" comment))
  /\ (forall e, snd (parseInfoFromComments qp) = Some e ->
                exists pos, e = CorruptInputError pos).
Proof.
  unfold parseInfoFromComments.
  destruct (GetComments qp.(Structure)) as [| comment rest]; simpl.
  { split; [split |]; [congruence | | discriminate].
    intros (c & r & Heq & _). discriminate Heq. }
  pose proof (decodeMarker_error_iff "SIGN:" comment [] (or_introl eq_refl))
    as [Hs1 Hs0].
  pose proof (decodeMarker_error_iff "DATA:" comment []
                (or_intror (or_introl eq_refl))) as [Hd1 Hd0].
  pose proof (decodeMarker_error_iff "PUBKEY:" comment []
                (or_intror (or_intror eq_refl))) as [Hp1 Hp0].
  assert (Hdec : forall m, matchedTwice m comment \/ ~ matchedTwice m comment).
  { intros m. unfold matchedTwice.
    destruct (Nat.eq_dec
                (List.length
                   (regexp.FindAllString {| regexp.marker := m |} comment))
                2); auto. }
  destruct (Hdec "SIGN:") as [Hs | Hs].
  { destruct (Hs1 Hs) as (b & pos & ->). simpl.
    split; [split; [intros _; exists comment, rest; auto | congruence] |].
    intros e He. injection He as <-. now exists pos. }
  rewrite (Hs0 Hs).
  destruct (Hdec "DATA:") as [Hd | Hd].
  { destruct (Hd1 Hd) as (b & pos & ->). simpl.
    split; [split; [intros _; exists comment, rest; auto | congruence] |].
    intros e He. injection He as <-. now exists pos. }
  rewrite (Hd0 Hd).
  destruct (Hdec "PUBKEY:") as [Hp | Hp].
  { destruct (Hp1 Hp) as (b & pos & ->). simpl.
    split; [split; [intros _; exists comment, rest; auto | congruence] |].
    intros e He. injection He as <-. now exists pos. }
  rewrite (Hp0 Hp). simpl.
  split; [split; [congruence |] | discriminate].
  intros (c & r & Heq & Hany). injection Heq as <- <-. tauto.
Qed.

End Parsed.

(** With a colon in a table name two rows can share a reference. *)
Lemma ReferenceID_shared_with_colon :
  ReferenceID (query lib.QueryKindUpdate "a:b" [] "id" "c")
  = ReferenceID (query lib.QueryKindUpdate "a" [] "id" "b:c").
Proof. reflexivity. Qed.

Lemma no_colon_in_accounts : ~ occurs ":" "accounts".
Proof.
  intros (before & after & Heq).
  repeat (destruct before as [| ? before]; simpl in Heq;
          [discriminate Heq | injection Heq as _ Heq]).
  destruct before; discriminate Heq.
Qed.

Lemma ReferenceID_identifies_row_witness :
  GetTable (Structure (query lib.QueryKindUpdate "accounts" [] "id" "42"))
  = GetTable (Structure (query lib.QueryKindDelete "accounts" [] "no" "42"))
  /\ KeyVal (query lib.QueryKindUpdate "accounts" [] "id" "42")
     = KeyVal (query lib.QueryKindDelete "accounts" [] "no" "42").
Proof.
  apply (ReferenceID_identifies_row
           (query lib.QueryKindUpdate "accounts" [] "id" "42")
           (query lib.QueryKindDelete "accounts" [] "no" "42"));
    [exact no_colon_in_accounts | exact no_colon_in_accounts | reflexivity].
Defined.

Lemma parseInfoFromComments_first_comment_only_witness :
  parseInfoFromComments
    (query lib.QueryKindInsert "users" ["SIGN:!;SIGN:!;"; "DATA:x;"] "id" "1")
  = parseInfoFromComments
      (query lib.QueryKindDrop "t" ["SIGN:!;SIGN:!;"] "" "").
Proof.
  apply (parseInfoFromComments_first_comment_only
           (query lib.QueryKindInsert "users" ["SIGN:!;SIGN:!;"; "DATA:x;"]
              "id" "1")
           (query lib.QueryKindDrop "t" ["SIGN:!;SIGN:!;"] "" "")).
  reflexivity.
Defined.

Lemma parseInfoFromComments_extracts_nothing_witness :
  @nil byte = [] /\ @nil byte = [] /\ @nil byte = [].
Proof.
  apply (EnvelopeFacts.parseInfoFromComments_extracts_nothing
           (query lib.QueryKindInsert "users" [envelopeComment] "id" "1")
           [] [] []).
  reflexivity.
Defined.

Lemma parseInfoFromComments_no_marker_witness :
  parseInfoFromComments (query lib.QueryKindInsert "users" [] "id" "1")
  = ([], [], [], None).
Proof.
  apply (proj1 (EnvelopeFacts.parseInfoFromComments_no_marker
                  (query lib.QueryKindInsert "users" [] "id" "1"))).
  reflexivity.
Defined.

End ParsedFacts.
